(** * Okta "unassign user from group" action: model and properties

    The action removes a user from an Okta group with one authenticated
    HTTP DELETE.  The versions of its code verified here:

    - [Script]: the module [src/script.mjs] (its text is the second
      document of [src/tests/script.test.js]), which imports the resolvers
      [getBaseURL], [getAuthorizationHeader] and [resolveJSONPathTemplates]
      from the package [@sgnl-actions/utils];
    - [Dist]: the bundle of [src/dist/index.js] that carries the address
      resolver (second document of that file), built from an earlier
      version that validates its inputs itself and reads the bearer token
      directly;
    - [Legacy]: the earlier bundle of the same file (its first document),
      which requires the parameter [oktaDomain].

    JavaScript values are a tree type [JsVal]; strings are sequences of
    bytes (the UTF-8 form of well-formed text, so [encodeURIComponent] is
    total on them); numbers are the integer-valued ones, whose decimal
    form is the platform's up to [2^53] in magnitude.  The conversion of
    a value to a string, which every template literal and
    [encodeURIComponent] apply, can throw: [stringOf] gives a completion.
    Console, network and clock are effects: the handlers run in a
    writer-and-exception monad [Eff] over a trace of [Event]s, against a
    [World] that answers the calls made to the outside. *)

From Stdlib Require Import ZArith String Ascii List DecimalString Lia.
From stdpp Require Import base option list gmap strings.

Local Open Scope Z_scope.

(* ================================================================== *)
(** ** Strings: the [String.prototype] methods the code calls *)

Module JsString.

(** [s.startsWith(p)] *)
Definition startsWith (s p : string) : bool := String.prefix p s.

(** [s.endsWith(p)]: [p] is [s] itself or a suffix of its tail. *)
Fixpoint endsWith (s p : string) : bool :=
  String.eqb s p ||
  match s with
  | EmptyString => false
  | String _ r => endsWith r p
  end.

(** [s.substring(start)] for [start >= 0]: the text from index [start]
    (clamped to the length) to the end. *)
Fixpoint substring (start : nat) (s : string) : string :=
  match start, s with
  | O, _ => s
  | S n, String _ r => substring n r
  | S _, EmptyString => EmptyString
  end.

(** [s.slice(b, e)]: negative indices count from the end, both are
    clamped to [0 .. length], an empty span gives the empty string. *)
Definition slice (s : string) (b e : Z) : string :=
  let len := Z.of_nat (String.length s) in
  let from := if b <? 0 then Z.max (len + b) 0 else Z.min b len in
  let to := if e <? 0 then Z.max (len + e) 0 else Z.min e len in
  String.substring (Z.to_nat from) (Z.to_nat (Z.max (to - from) 0)) s.

(** [s.split(sep)] for a one-character separator. *)
Fixpoint split (sep : ascii) (s : string) : list string :=
  match s with
  | EmptyString => [EmptyString]
  | String c r =>
      if Ascii.eqb c sep then EmptyString :: split sep r
      else match split sep r with
           | [] => [String c EmptyString]
           | w :: ws => String c w :: ws
           end
  end.

(** [s.includes(c)] for a one-character [c]. *)
Fixpoint includes (s : string) (c : ascii) : bool :=
  match s with
  | EmptyString => false
  | String d r => Ascii.eqb d c || includes r c
  end.

End JsString.

(* ================================================================== *)
(** ** [encodeURIComponent]

    ECMA-262, 19.2.6.4: every byte of the UTF-8 form is escaped as [%XX]
    (upper-case hexadecimal) except the unreserved marks
    [A-Z a-z 0-9 - _ . ! ~ * ' ( )]. *)

Module Uri.

Definition between (lo hi n : N) : bool := ((lo <=? n) && (n <=? hi))%N.

Definition unreserved (c : ascii) : bool :=
  let n := N_of_ascii c in
  between 65 90 n || between 97 122 n || between 48 57 n ||
  match c with
  | "-" | "_" | "." | "!" | "~" | "*" | "'" | "(" | ")" => true
  | _ => false
  end%char.

Definition hexDigit (n : N) : ascii :=
  ascii_of_N (if (n <? 10)%N then 48 + n else 55 + n)%N.

Definition escape (c : ascii) : string :=
  let n := N_of_ascii c in
  String "%" (String (hexDigit (n / 16)) (String (hexDigit (n mod 16)) EmptyString)).

Fixpoint encodeURIComponent (s : string) : string :=
  match s with
  | EmptyString => EmptyString
  | String c r =>
      (if unreserved c then String c EmptyString else escape c)
        +:+ encodeURIComponent r
  end.

(** The characters an encoded component is made of. *)
Definition encoded_char (c : ascii) : bool :=
  unreserved c || Ascii.eqb c "%".

Fixpoint all_chars (p : ascii -> bool) (s : string) : bool :=
  match s with
  | EmptyString => true
  | String c r => p c && all_chars p r
  end.

End Uri.

(* ================================================================== *)
(** ** JavaScript values *)

(** What an object is an instance of: a plain object (an object literal,
    an object of a parsed JSON text), or an error built by the
    constructor of the given name ([Error], [TypeError]). *)
Inductive ObjClass : Type :=
| PlainObject
| ErrorObject (ctor : string).

(** A number [JNum n] is the integer-valued number [n] (its decimal
    form, which [Js.ToString] gives, is what the platform prints for the
    integers up to [2^53] in magnitude, the range in which every integer
    is a number of the platform); the own
    properties of an object are kept in the order they were created, the
    first binding of a key being the one a read finds.  The values are
    those a JSON text or an error can hold: no property is a function. *)
#[warnings="-register-all"]
Inductive JsVal : Type :=
| JUndefined
| JNull
| JBool (b : bool)
| JNum (n : Z)
| JStr (s : string)
| JArr (items : list JsVal)
| JObj (cls : ObjClass) (props : list (string * JsVal)).

Module Js.

(** ToBoolean *)
Definition truthy (v : JsVal) : bool :=
  match v with
  | JUndefined | JNull => false
  | JBool b => b
  | JNum n => negb (n =? 0)
  | JStr s => negb (String.eqb s "")
  | JArr _ | JObj _ _ => true
  end.

(** [typeof v] *)
Definition typeof (v : JsVal) : string :=
  match v with
  | JUndefined => "undefined"
  | JNull => "object"
  | JBool _ => "boolean"
  | JNum _ => "number"
  | JStr _ => "string"
  | JArr _ | JObj _ _ => "object"
  end.

(** [a || b] *)
Definition orElse (a b : JsVal) : JsVal := if truthy a then a else b.

(** Own property of an object. *)
Fixpoint ownProp (k : string) (props : list (string * JsVal)) : option JsVal :=
  match props with
  | [] => None
  | (k', v) :: r => if String.eqb k' k then Some v else ownProp k r
  end.

(** What the prototype of an error object answers for [name] and
    [message]. *)
Definition inherited (cls : ObjClass) (k : string) : JsVal :=
  match cls with
  | PlainObject => JUndefined
  | ErrorObject ctor =>
      if String.eqb k "name" then JStr ctor
      else if String.eqb k "message" then JStr ""
      else JUndefined
  end.

(** The string a value converts to, when it converts (see
    [convertible] below).  An array joins its items with commas, [null]
    and [undefined] items giving nothing; a plain object prints as
    [[object Object]]; an error prints its name and message as
    [Error.prototype.toString] does.  A number prints in decimal, which
    is the platform's notation for the integers up to [2^53] in
    magnitude (see [plain]). *)
Fixpoint ToString (v : JsVal) : string :=
  match v with
  | JUndefined => "undefined"
  | JNull => "null"
  | JBool b => if b then "true" else "false"
  | JNum n => NilZero.string_of_int (Z.to_int n)
  | JStr s => s
  | JArr items =>
      (fix join (first : bool) (l : list JsVal) : string :=
         match l with
         | [] => ""
         | x :: r =>
             (if first then "" else ",")
               +:+ match x with
                   | JUndefined | JNull => ""
                   | _ => ToString x
                   end
               +:+ join false r
         end) true items
  | JObj PlainObject _ => "[object Object]"
  | JObj (ErrorObject ctor) props =>
      let name :=
        (fix find (l : list (string * JsVal)) : string :=
           match l with
           | [] => ctor
           | (k, x) :: r =>
               if String.eqb k "name"
               then match x with JUndefined => "Error" | _ => ToString x end
               else find r
           end) props in
      let msg :=
        (fix find (l : list (string * JsVal)) : string :=
           match l with
           | [] => ""
           | (k, x) :: r =>
               if String.eqb k "message"
               then match x with JUndefined => "" | _ => ToString x end
               else find r
           end) props in
      if String.eqb name "" then msg
      else if String.eqb msg "" then name
      else name +:+ ": " +:+ msg
  end.

(** Whether ToString succeeds.  An object with an own property
    [toString] does not convert: the property is not callable, the
    inherited [valueOf] returns the object itself, and the conversion
    ends in a [TypeError].  An array converts when its items do, an
    error when its [name] and [message] do. *)
Fixpoint convertible (v : JsVal) : bool :=
  match v with
  | JArr items =>
      (fix all (l : list JsVal) : bool :=
         match l with
         | [] => true
         | x :: r => convertible x && all r
         end) items
  | JObj cls props =>
      match ownProp "toString" props with
      | Some _ => false
      | None =>
          match cls with
          | PlainObject => true
          | ErrorObject _ =>
              (fix find (l : list (string * JsVal)) : bool :=
                 match l with
                 | [] => true
                 | (k, x) :: r =>
                     if String.eqb k "name" then convertible x else find r
                 end) props
              &&
              (fix find (l : list (string * JsVal)) : bool :=
                 match l with
                 | [] => true
                 | (k, x) :: r =>
                     if String.eqb k "message" then convertible x else find r
                 end) props
          end
      end
  | _ => true
  end.

(** The values that print as they are written: [undefined], [null],
    the booleans, the strings, and the integers up to [2^53] in
    magnitude (beyond, the platform rounds and shortens the digits). *)
Definition plain (v : JsVal) : bool :=
  match v with
  | JUndefined | JNull | JBool _ | JStr _ => true
  | JNum n => Z.abs n <=? 2 ^ 53
  | JArr _ | JObj _ _ => false
  end.

(** [new Error(message)] and the [TypeError] the engine raises. *)
Definition newError (message : string) : JsVal :=
  JObj (ErrorObject "Error") [("message", JStr message)].

Definition newTypeError (message : string) : JsVal :=
  JObj (ErrorObject "TypeError") [("message", JStr message)].

(** [o.k = v] on an object: the binding is replaced in place, or added
    after the existing ones. *)
Fixpoint assign (k : string) (v : JsVal) (props : list (string * JsVal))
  : list (string * JsVal) :=
  match props with
  | [] => [(k, v)]
  | (k', v') :: r =>
      if String.eqb k' k then (k, v) :: r else (k', v') :: assign k v r
  end.

Definition setProp (o : JsVal) (k : string) (v : JsVal) : JsVal :=
  match o with
  | JObj cls props => JObj cls (assign k v props)
  | _ => o
  end.

End Js.

(* ================================================================== *)
(** ** Effects: completions, the trace, the monad *)

(** A statement completes normally with a value or abruptly with the
    value thrown (a rejected promise, once awaited, is a throw). *)
Inductive Completion (A : Type) : Type :=
| Normal (a : A)
| Throw (e : JsVal).
Arguments Normal {A} a.
Arguments Throw {A} e.

(** The request [fetch(url, {method, headers})] sends. *)
Record Request : Type := mkRequest {
  url : string;
  method : string;
  headers : list (string * string)
}.

(** What the code reads of a [Response]: the fields [ok] and [status] and
    the outcome of [response.json()], which rejects when the body is not
    JSON. *)
Record Response : Type := mkResponse {
  ok : bool;
  status : Z;
  json : Completion JsVal
}.

Inductive Console : Type := ConsoleLog | ConsoleWarn | ConsoleError.

(** The credential schemes of the authorization resolver. *)
Inductive Scheme : Type :=
| BearerToken (token : string)
| BasicAuth (username password : string)
| ClientCredentials (clientId clientSecret tokenUrl : string)
    (scope audience authStyle : option string)
| AccessToken (token : string).

(** What a run does to the outside, in order. *)
Inductive Event : Type :=
| EvConsole (stream : Console) (args : list JsVal)
| EvTokenExchange (tokenUrl : string)
| EvFetch (req : Request).

Definition Eff (A : Type) : Type := (list Event * Completion A)%type.

Module Eff.

Definition ret {A} (a : A) : Eff A := ([], Normal a).

Definition throw {A} (e : JsVal) : Eff A := ([], Throw e).

Definition bind {A B} (m : Eff A) (f : A -> Eff B) : Eff B :=
  match m with
  | (t, Normal a) => let '(t', c) := f a in (t ++ t', c)
  | (t, Throw e) => (t, Throw e)
  end.

Definition emit (ev : Event) : Eff unit := ([ev], Normal tt).

Definition lift {A} (c : Completion A) : Eff A := ([], c).

(** [try { m } catch { h }] *)
Definition tryCatch {A} (m : Eff A) (h : JsVal -> Eff A) : Eff A :=
  match m with
  | (t, Normal a) => (t, Normal a)
  | (t, Throw e) => let '(t', c) := h e in (t ++ t', c)
  end.

Definition trace {A} (m : Eff A) : list Event := fst m.
Definition outcome {A} (m : Eff A) : Completion A := snd m.

End Eff.

Declare Scope eff_scope.
Delimit Scope eff_scope with eff.
Notation "'let!' x ':=' m 'in' k" := (Eff.bind m (fun x => k))
  (at level 10, x name, m at level 100, k at level 200) : eff_scope.
Notation "m ';;' k" := (Eff.bind m (fun _ => k))
  (at level 100, k at level 200, right associativity) : eff_scope.

(** The requests sent to the target API during a run. *)
Fixpoint fetches (t : list Event) : list Request :=
  match t with
  | [] => []
  | EvFetch r :: t' => r :: fetches t'
  | _ :: t' => fetches t'
  end.

(** [console.log], [console.warn], [console.error] *)
Definition console (stream : Console) (args : list JsVal) : Eff unit :=
  Eff.emit (EvConsole stream args).

(* ================================================================== *)
(** ** The execution context and the outside world *)

(** [context]: the environment variables and the secrets (maps of
    strings, either of which may be absent) and the job data. *)
Record Context : Type := mkContext {
  environment : option (gmap string string);
  secrets : option (gmap string string);
  data : JsVal
}.

(** The collaborators of one run.  [now] is the clock read by
    [new Date().toISOString()] and [fetch] the transport.  The two
    others stand for code of [@sgnl-actions/utils] that is not among the
    repository's files, and are parameters of the model: the template
    pre-pass, with the interface the spec gives it,
    [(rawParams, jobContext) -> (resolvedParams, errors)], and the step
    of the authorization resolver that turns the selected credential
    into a header (for the client-credentials grant, the token
    exchange, which may fail). *)
Record World : Type := mkWorld {
  now : string;
  fetch : Request -> Completion Response;
  resolveJSONPathTemplates :
    gmap string JsVal -> JsVal -> gmap string JsVal * list JsVal;
  produceHeader : Scheme -> Completion string
}.

(** [params.k]: [undefined] when the key is absent. *)
Definition param (params : gmap string JsVal) (k : string) : JsVal :=
  default JUndefined (params !! k).

(** [m.k] on a map of strings that may itself be absent ([m?.k] when it
    is, [(m || {}).k]). *)
Definition setting (m : option (gmap string string)) (k : string) : JsVal :=
  match m with
  | Some m' => match m' !! k with Some s => JStr s | None => JUndefined end
  | None => JUndefined
  end.

(** [v.k] for the two keys the handlers read, [message] and
    [errorSummary]: a [TypeError] on [undefined] and [null], the own or
    inherited property of an object, [undefined] on the other values. *)
Definition getProp (v : JsVal) (k : string) : Completion JsVal :=
  match v with
  | JUndefined =>
      Throw (Js.newTypeError
               ("Cannot read properties of undefined (reading '" +:+ k +:+ "')"))
  | JNull =>
      Throw (Js.newTypeError
               ("Cannot read properties of null (reading '" +:+ k +:+ "')"))
  | JObj cls props =>
      Normal (default (Js.inherited cls k) (Js.ownProp k props))
  | _ => Normal JUndefined
  end.

(** ToString as a template literal and [encodeURIComponent] apply it:
    the string of a value that converts, a [TypeError] otherwise. *)
Definition stringOf (v : JsVal) : Completion string :=
  if Js.convertible v then Normal (Js.ToString v)
  else Throw (Js.newTypeError "Cannot convert object to primitive value").

(** A substitution [${v}] of a template literal. *)
Definition interp (v : JsVal) : Eff string := Eff.lift (stringOf v).

Local Open Scope eff_scope.

(* ================================================================== *)
(** ** The records the handlers return *)

Module InvokeResult.
Record t : Type := mk {
  userId : JsVal;
  groupId : JsVal;
  removed : bool;
  address : string;
  removedAt : string
}.
End InvokeResult.

Module HaltResult.
Record t : Type := mk {
  userId : JsVal;
  groupId : JsVal;
  reason : JsVal;
  haltedAt : string;
  cleanupCompleted : bool
}.
End HaltResult.

(* ================================================================== *)
(** ** The shared resolvers *)

Module Utils.

(** [getBaseUrl], src/dist/index.js lines 169-179.  [script.mjs]
    imports the same resolver from the package under the name
    [getBaseURL]; its test expects the message thrown here. *)
Definition getBaseUrl (params : gmap string JsVal) (context : Context)
  : Completion string :=
  let address :=
    Js.orElse (param params "address") (setting (environment context) "ADDRESS") in
  if negb (Js.truthy address) then
    Throw (Js.newError
             "No URL specified. Provide address parameter or ADDRESS environment variable")
  else
    match address with
    | JStr a =>
        Normal (if JsString.endsWith a "/" then JsString.slice a 0 (-1) else a)
    | _ => Throw (Js.newTypeError "address.endsWith is not a function")
    end.

(** A credential that is present and not empty. *)
Definition material (m : option (gmap string string)) (k : string)
  : option string :=
  match m with
  | Some m' =>
      match m' !! k with
      | Some s => if String.eqb s "" then None else Some s
      | None => None
      end
  | None => None
  end.

(** Modelled from the spec: the choice of the credential scheme made by
    the resolver [getAuthorizationHeader] of [@sgnl-actions/utils], whose
    code is not among the repository's files.  The four schemes are
    tried in the order the spec lists them, each needing its material:
    the bearer token; the basic username and password; the client
    secret, client id and token URL of the client-credentials grant
    (with optional scope, audience and authentication style); the
    pre-issued access token.  The names of the secrets and variables
    are those documented on [invoke] in [script.mjs]. *)
Definition selectScheme (context : Context) : option Scheme :=
  let secret := material (secrets context) in
  let env := material (environment context) in
  match secret "BEARER_AUTH_TOKEN" with
  | Some token => Some (BearerToken token)
  | None =>
  match secret "BASIC_USERNAME", secret "BASIC_PASSWORD" with
  | Some username, Some password => Some (BasicAuth username password)
  | _, _ =>
  match secret "OAUTH2_CLIENT_CREDENTIALS_CLIENT_SECRET",
        env "OAUTH2_CLIENT_CREDENTIALS_CLIENT_ID",
        env "OAUTH2_CLIENT_CREDENTIALS_TOKEN_URL" with
  | Some clientSecret, Some clientId, Some tokenUrl =>
      Some (ClientCredentials clientId clientSecret tokenUrl
              (env "OAUTH2_CLIENT_CREDENTIALS_SCOPE")
              (env "OAUTH2_CLIENT_CREDENTIALS_AUDIENCE")
              (env "OAUTH2_CLIENT_CREDENTIALS_AUTH_STYLE"))
  | _, _, _ =>
  match secret "OAUTH2_AUTHORIZATION_CODE_ACCESS_TOKEN" with
  | Some token => Some (AccessToken token)
  | None => None
  end end end end.

(** Modelled from the spec: the resolver [getAuthorizationHeader] of
    [@sgnl-actions/utils], whose code is not among the repository's
    files.  It fails with an [AuthenticationError] of message
    [No authentication configured] when no scheme has its material, and
    otherwise returns the header of the selected scheme; the
    client-credentials grant exchanges its credentials at the token
    endpoint first. *)
Definition getAuthorizationHeader (w : World) (context : Context) : Eff string :=
  match selectScheme context with
  | None =>
      Eff.throw (JObj (ErrorObject "AuthenticationError")
                   [("message", JStr "No authentication configured")])
  | Some scheme =>
      match scheme with
      | ClientCredentials _ _ tokenUrl _ _ _ => Eff.emit (EvTokenExchange tokenUrl)
      | _ => Eff.ret tt
      end ;;
      Eff.lift (produceHeader w scheme)
  end.

End Utils.

(* ================================================================== *)
(** ** The code after the call

    Lines 283-315 of [script.mjs] and lines 259-291 of the bundle, the
    same text in both: a response with [ok] gives the result record; any
    other one gives an [Error] carrying the status code, whose message
    is built from the [errorSummary] of the JSON body when there is a
    truthy one.  The assignment to [errorMessage] sits inside the [try]
    after the three steps that can throw (the body, the read of the
    summary, its conversion to a string), so the [catch] leaves the
    default message. *)

Definition handleResponse (w : World) (userId groupId : JsVal)
    (baseUrl : string) (response : Response) : Eff InvokeResult.t :=
  if ok response then
    let! u := interp userId in
    let! g := interp groupId in
    console ConsoleLog
      [JStr ("Successfully removed user " +:+ u +:+ " from group " +:+ g)] ;;
    Eff.ret (InvokeResult.mk userId groupId true baseUrl (now w))
  else
    let statusCode := status response in
    let errorMessage :=
      "Failed to remove user from group: HTTP " +:+ Js.ToString (JNum statusCode) in
    let! errorMessage :=
      Eff.tryCatch
        (let! errorBody := Eff.lift (json response) in
         let! errorSummary := Eff.lift (getProp errorBody "errorSummary") in
         let! errorMessage :=
           if Js.truthy errorSummary
           then let! summary := interp errorSummary in
                Eff.ret ("Failed to remove user from group: " +:+ summary)
           else Eff.ret errorMessage in
         console ConsoleError [JStr "Okta API error response:"; errorBody] ;;
         Eff.ret errorMessage)
        (fun _ =>
           console ConsoleError [JStr "Failed to parse error response"] ;;
           Eff.ret errorMessage) in
    let error := Js.newError errorMessage in
    let error := Js.setProp error "statusCode" (JNum statusCode) in
    Eff.throw error.

(** The three headers of the DELETE request. *)
Definition requestHeaders (authHeader : string) : list (string * string) :=
  [("Authorization", authHeader);
   ("Accept", "application/json");
   ("Content-Type", "application/json")].

(** The URL of the request: lines 203-207 of [script.mjs], lines 195-199
    of the bundle.  [encodeURIComponent] takes the string form of its
    argument. *)
Definition requestUrl (userId groupId : JsVal) (baseUrl : string) : string :=
  let encodedUserId := Uri.encodeURIComponent (Js.ToString userId) in
  let encodedGroupId := Uri.encodeURIComponent (Js.ToString groupId) in
  baseUrl +:+ "/api/v1/groups/" +:+ encodedGroupId +:+ "/users/" +:+ encodedUserId.

(** The request sent for the given identifiers, address and header. *)
Definition request (userId groupId : JsVal) (baseUrl authHeader : string)
  : Request :=
  mkRequest (requestUrl userId groupId baseUrl) "DELETE"
    (requestHeaders authHeader).

(* ================================================================== *)
(** ** [src/script.mjs] *)

Module Script.

(** The rewrite of lines 269-273: a header of the generic form
    [Bearer <token>] becomes the token itself when that already starts
    with [SSWS ], and [SSWS <token>] otherwise; any other header is
    kept. *)
Definition sswsHeader (authHeader : string) : string :=
  if JsString.startsWith authHeader "Bearer " then
    let token := JsString.substring 7 authHeader in
    if JsString.startsWith token "SSWS " then token else "SSWS " +:+ token
  else authHeader.

(** Lines 201-219.  [encodeURIComponent] converts its argument first,
    the user before the group. *)
Definition unassignUserFromGroup (w : World) (userId groupId : JsVal)
    (baseUrl authHeader : string) : Eff Response :=
  let! u := interp userId in
  let! g := interp groupId in
  let url := requestUrl (JStr u) (JStr g) baseUrl in
  let req := mkRequest url "DELETE" (requestHeaders authHeader) in
  Eff.emit (EvFetch req) ;;
  Eff.lift (fetch w req).

(** Lines 250-316. *)
Definition invoke (w : World) (params : gmap string JsVal) (context : Context)
  : Eff InvokeResult.t :=
  let jobContext := Js.orElse (data context) (JObj PlainObject []) in
  let '(resolvedParams, errors) := resolveJSONPathTemplates w params jobContext in
  match errors with
  | [] => Eff.ret tt
  | _ :: _ => console ConsoleWarn [JStr "Template resolution errors:"; JArr errors]
  end ;;
  let userId := param resolvedParams "userId" in
  let groupId := param resolvedParams "groupId" in
  let! u := interp userId in
  let! g := interp groupId in
  console ConsoleLog
    [JStr ("Starting Okta user group removal: user " +:+ u
           +:+ " from group " +:+ g)] ;;
  let! baseUrl := Eff.lift (Utils.getBaseUrl resolvedParams context) in
  let! authHeader := Utils.getAuthorizationHeader w context in
  let authHeader := sswsHeader authHeader in
  let! response := unassignUserFromGroup w userId groupId baseUrl authHeader in
  handleResponse w userId groupId baseUrl response.

(** The parameters [invoke] works on: those the template pre-pass
    returns for the input and the job data ([context.data || {}]). *)
Definition resolvedParams (w : World) (params : gmap string JsVal)
    (context : Context) : gmap string JsVal :=
  fst (resolveJSONPathTemplates w params
         (Js.orElse (data context) (JObj PlainObject []))).

(** Lines 325-332. *)
Definition error (params : gmap string JsVal) (_context : Context) : Eff JsVal :=
  let error := param params "error" in
  let userId := param params "userId" in
  let groupId := param params "groupId" in
  let! u := interp userId in
  let! g := interp groupId in
  let! message := Eff.lift (getProp error "message") in
  let! m := interp message in
  console ConsoleError
    [JStr ("User group removal failed for user " +:+ u
           +:+ " from group " +:+ g +:+ ": " +:+ m)] ;;
  Eff.throw error.

(** Lines 340-354. *)
Definition halt (w : World) (params : gmap string JsVal) (_context : Context)
  : Eff HaltResult.t :=
  let reason := param params "reason" in
  let userId := param params "userId" in
  let groupId := param params "groupId" in
  let! r := interp reason in
  let! u := interp userId in
  let! g := interp groupId in
  console ConsoleLog
    [JStr ("User group removal job is being halted (" +:+ r
           +:+ ") for user " +:+ u +:+ " from group " +:+ g)] ;;
  Eff.ret (HaltResult.mk
             (Js.orElse userId (JStr "unknown"))
             (Js.orElse groupId (JStr "unknown"))
             reason
             (now w)
             true).

End Script.

(* ================================================================== *)
(** ** [src/dist/index.js], the bundle with the address resolver *)

Module Dist.

(** The validation of lines 234 and 237: [!v || typeof v !== 'string']. *)
Definition invalid (v : JsVal) : bool :=
  negb (Js.truthy v) || negb (String.eqb (Js.typeof v) "string").

(** Line 202: the token gets the [SSWS ] prefix unless it has it. *)
Definition sswsHeader (authToken : string) : string :=
  if JsString.startsWith authToken "SSWS " then authToken
  else "SSWS " +:+ authToken.

(** Lines 193-214. *)
Definition unassignUserFromGroup (w : World) (userId groupId : JsVal)
    (baseUrl authToken : string) : Eff Response :=
  let! u := interp userId in
  let! g := interp groupId in
  let url := requestUrl (JStr u) (JStr g) baseUrl in
  let authHeader := sswsHeader authToken in
  let req := mkRequest url "DELETE" (requestHeaders authHeader) in
  Eff.emit (EvFetch req) ;;
  Eff.lift (fetch w req).

(** Lines 228-292. *)
Definition invoke (w : World) (params : gmap string JsVal) (context : Context)
  : Eff InvokeResult.t :=
  let userId := param params "userId" in
  let groupId := param params "groupId" in
  let! u := interp userId in
  let! g := interp groupId in
  console ConsoleLog
    [JStr ("Starting Okta user group removal: user " +:+ u
           +:+ " from group " +:+ g)] ;;
  if invalid userId then
    Eff.throw (Js.newError "Invalid or missing userId parameter")
  else if invalid groupId then
    Eff.throw (Js.newError "Invalid or missing groupId parameter")
  else
    let! baseUrl := Eff.lift (Utils.getBaseUrl params context) in
    (* [!context.secrets?.BEARER_AUTH_TOKEN]: absent or empty *)
    match Utils.material (secrets context) "BEARER_AUTH_TOKEN" with
    | None => Eff.throw (Js.newError "Missing required secret: BEARER_AUTH_TOKEN")
    | Some authToken =>
        let! response := unassignUserFromGroup w userId groupId baseUrl authToken in
        handleResponse w userId groupId baseUrl response
    end.

(** Lines 301-308 and 316-330: the text of the two other handlers is
    that of [script.mjs]. *)
Definition error := Script.error.
Definition halt := Script.halt.

End Dist.

(* ================================================================== *)
(** ** Fixtures: the contexts and transports of the test suite *)

Module Fixture.

(** [mockContext] of the test suite: one bearer token, no
    [environment], no job data. *)
Definition mockContext : Context :=
  mkContext None (Some {[ "BEARER_AUTH_TOKEN" := "test-okta-token-123456" ]})
    JUndefined.

(** The same context with an empty [secrets]. *)
Definition contextWithoutToken : Context :=
  mkContext None (Some ∅) JUndefined.

(** A world whose requests are all answered by [response]; the inputs
    hold no template, and the static tokens are sent in the generic
    bearer form. *)
Definition world (response : Completion Response) : World :=
  mkWorld "2024-01-15T10:30:00.000Z"
    (fun _ => response)
    (fun params _ => (params, []))
    (fun scheme =>
       match scheme with
       | BearerToken token | AccessToken token => Normal ("Bearer " +:+ token)
       | _ => Throw (Js.newError "credential not served by this fixture")
       end).

Definition noContent : Response :=
  mkResponse true 204 (Normal (JObj PlainObject [])).

(** The 404 of the test suite. *)
Definition notFound : Response :=
  mkResponse false 404
    (Normal (JObj PlainObject
       [("errorCode", JStr "E0000007");
        ("errorSummary", JStr "Not found: User user123 not found in group group456");
        ("errorLink", JStr "E0000007");
        ("errorId", JStr "oae123")])).

(** The 500 of the test suite, whose body is not JSON. *)
Definition notJson : Response :=
  mkResponse false 500 (Throw (Js.newError "Not JSON")).

(** A 404 whose summary is the empty string. *)
Definition emptySummary : Response :=
  mkResponse false 404 (Normal (JObj PlainObject [("errorSummary", JStr "")])).

Definition params : gmap string JsVal :=
  {[ "userId" := JStr "user123";
     "groupId" := JStr "group456";
     "address" := JStr "https://example.okta.com" ]}.

(** The same input without its [userId]. *)
Definition paramsNoUser : gmap string JsVal :=
  {[ "groupId" := JStr "group456";
     "address" := JStr "https://example.okta.com" ]}.

(** The same input without an [address]. *)
Definition paramsNoAddress : gmap string JsVal :=
  {[ "userId" := JStr "user123"; "groupId" := JStr "group456" ]}.


(** The inputs of the halt handler in the test suite. *)
Definition haltParams : gmap string JsVal :=
  {[ "userId" := JStr "user123";
     "groupId" := JStr "group456";
     "reason" := JStr "timeout" ]}.

Definition haltParamsMissing : gmap string JsVal :=
  {[ "reason" := JStr "system_shutdown" ]}.

End Fixture.

(* ================================================================== *)
(** ** [src/dist/index.js], the earlier bundle with [oktaDomain]

    The first document of the file: the address is the required
    parameter [oktaDomain], and the URL is built by the [URL]
    constructor.  The constructor is the platform's parser; it is a
    parameter [newURL] of the model, giving for a path and a base the
    text of [url.toString()], or the [TypeError] it throws. *)

Module LegacyResult.
Record t : Type := mk {
  userId : JsVal;
  groupId : JsVal;
  removed : bool;
  oktaDomain : JsVal;
  removedAt : string
}.
End LegacyResult.

Module Legacy.

(** The path given to the [URL] constructor, line 19. *)
Definition requestPath (userId groupId : JsVal) : string :=
  let encodedUserId := Uri.encodeURIComponent (Js.ToString userId) in
  let encodedGroupId := Uri.encodeURIComponent (Js.ToString groupId) in
  "/api/v1/groups/" +:+ encodedGroupId +:+ "/users/" +:+ encodedUserId.

(** Lines 15-33. *)
Definition unassignUserFromGroup (newURL : string -> string -> Completion string)
    (w : World) (userId groupId oktaDomain : JsVal) (authToken : string)
  : Eff Response :=
  let! u := interp userId in
  let! g := interp groupId in
  let! d := interp oktaDomain in
  let! url := Eff.lift (newURL (requestPath (JStr u) (JStr g)) ("https://" +:+ d)) in
  (* line 21, the text of line 202 of the later bundle *)
  let authHeader := Dist.sswsHeader authToken in
  let req := mkRequest url "DELETE" (requestHeaders authHeader) in
  Eff.emit (EvFetch req) ;;
  Eff.lift (fetch w req).

(** The code after the call, lines 76-108. *)
Definition handleResponse (w : World) (userId groupId oktaDomain : JsVal)
    (response : Response) : Eff LegacyResult.t :=
  if ok response then
    let! u := interp userId in
    let! g := interp groupId in
    console ConsoleLog
      [JStr ("Successfully removed user " +:+ u +:+ " from group " +:+ g)] ;;
    Eff.ret (LegacyResult.mk userId groupId true oktaDomain (now w))
  else
    let statusCode := status response in
    let errorMessage :=
      "Failed to remove user from group: HTTP " +:+ Js.ToString (JNum statusCode) in
    let! errorMessage :=
      Eff.tryCatch
        (let! errorBody := Eff.lift (json response) in
         let! errorSummary := Eff.lift (getProp errorBody "errorSummary") in
         let! errorMessage :=
           if Js.truthy errorSummary
           then let! summary := interp errorSummary in
                Eff.ret ("Failed to remove user from group: " +:+ summary)
           else Eff.ret errorMessage in
         console ConsoleError [JStr "Okta API error response:"; errorBody] ;;
         Eff.ret errorMessage)
        (fun _ =>
           console ConsoleError [JStr "Failed to parse error response"] ;;
           Eff.ret errorMessage) in
    let error := Js.newError errorMessage in
    let error := Js.setProp error "statusCode" (JNum statusCode) in
    Eff.throw error.

(** Lines 47-109. *)
Definition invoke (newURL : string -> string -> Completion string)
    (w : World) (params : gmap string JsVal) (context : Context)
  : Eff LegacyResult.t :=
  let userId := param params "userId" in
  let groupId := param params "groupId" in
  let oktaDomain := param params "oktaDomain" in
  let! u := interp userId in
  let! g := interp groupId in
  console ConsoleLog
    [JStr ("Starting Okta user group removal: user " +:+ u
           +:+ " from group " +:+ g)] ;;
  if Dist.invalid userId then
    Eff.throw (Js.newError "Invalid or missing userId parameter")
  else if Dist.invalid groupId then
    Eff.throw (Js.newError "Invalid or missing groupId parameter")
  else if Dist.invalid oktaDomain then
    Eff.throw (Js.newError "Invalid or missing oktaDomain parameter")
  else
    (* [!context.secrets?.BEARER_AUTH_TOKEN]: absent or empty *)
    match Utils.material (secrets context) "BEARER_AUTH_TOKEN" with
    | None => Eff.throw (Js.newError "Missing required secret: BEARER_AUTH_TOKEN")
    | Some authToken =>
        let! response :=
          unassignUserFromGroup newURL w userId groupId oktaDomain authToken in
        handleResponse w userId groupId oktaDomain response
    end.

End Legacy.

(* ================================================================== *)
(** ** Notions the properties are stated with *)

(** The console lines of a run, in order. *)
Fixpoint consoles (t : list Event) : list (Console * list JsVal) :=
  match t with
  | [] => []
  | EvConsole stream args :: t' => (stream, args) :: consoles t'
  | _ :: t' => consoles t'
  end.

(** The world in which the template pre-pass reports no error and
    resolves as in [w]. *)
Definition withoutTemplateErrors (w : World) : World :=
  mkWorld (now w) (fetch w)
    (fun params jobContext => (fst (resolveJSONPathTemplates w params jobContext), []))
    (produceHeader w).

(** The value of a hexadecimal digit. *)
Definition hexValue (c : ascii) : option N :=
  let n := N_of_ascii c in
  if Uri.between 48 57 n then Some (n - 48)%N
  else if Uri.between 65 70 n then Some (n - 55)%N
  else None.

(** The escaping undone, byte by byte: [%XX] gives the byte of value
    [XX], a [%] that two hexadecimal digits do not follow has no
    reading, any other character stands for itself. *)
Fixpoint percentDecode (s : string) : option string :=
  match s with
  | EmptyString => Some EmptyString
  | String c r =>
      if Ascii.eqb c "%" then
        match r with
        | String a (String b r') =>
            match hexValue a, hexValue b, percentDecode r' with
            | Some x, Some y, Some d => Some (String (ascii_of_N (16 * x + y)) d)
            | _, _, _ => None
            end
        | _ => None
        end
      else
        match percentDecode r with
        | Some d => Some (String c d)
        | None => None
        end
  end.

(** Further inputs and worlds the properties are tried on. *)
Module Scenario.

(** The [URL] of the test suite: [toString] gives the base followed by
    the path. *)
Definition newURL (path base : string) : Completion string :=
  Normal (base +:+ path).

Definition params : gmap string JsVal :=
  {[ "userId" := JStr "user123";
     "groupId" := JStr "group456";
     "oktaDomain" := JStr "example.okta.com" ]}.

(** The input of the later versions, with [address] and no
    [oktaDomain]; the context below holds an [ADDRESS] besides. *)
Definition contextWithAddress : Context :=
  mkContext (Some {[ "ADDRESS" := "https://example.okta.com" ]})
    (Some {[ "BEARER_AUTH_TOKEN" := "test-okta-token-123456" ]})
    JUndefined.

(** A world whose pre-pass reports one error. *)
Definition worldWithTemplateError (response : Completion Response) : World :=
  mkWorld "2024-01-15T10:30:00.000Z"
    (fun _ => response)
    (fun params _ => (params, [JStr "failed to resolve template"]))
    (produceHeader (Fixture.world response)).

(** A world whose transport fails. *)
Definition networkDown : World :=
  Fixture.world (Throw (Js.newTypeError "fetch failed")).




(** The context of the test suite with another token. *)
Definition otherToken : Context :=
  mkContext None (Some {[ "BEARER_AUTH_TOKEN" := "SSWS another-token" ]}) JUndefined.

End Scenario.


(* ================================================================== *)
(** ** Strings *)

Section StringFacts.

Lemma append_cons (c : ascii) (s t : string) :
  String c s +:+ t = String c (s +:+ t).
Proof. reflexivity. Qed.

Lemma append_nil_r (s : string) : s +:+ "" = s.
Proof. induction s as [|c s IH]; [reflexivity|]. now rewrite append_cons, IH. Qed.

Lemma append_assoc (a b c : string) : (a +:+ b) +:+ c = a +:+ (b +:+ c).
Proof.
  induction a as [|x a IH]; [reflexivity|].
  now rewrite !append_cons, IH.
Qed.

Lemma length_append (a b : string) :
  String.length (a +:+ b) = (String.length a + String.length b)%nat.
Proof.
  induction a as [|x a IH]; [reflexivity|].
  rewrite append_cons. simpl. now rewrite IH.
Qed.

(** A prefix can be split off. *)
Lemma prefix_split (p s : string) :
  String.prefix p s = true -> s = p +:+ JsString.substring (String.length p) s.
Proof.
  revert s. induction p as [|c p IH]; intros s H; [reflexivity|].
  destruct s as [|d s]; simpl in H; [discriminate|].
  destruct (ascii_dec c d) as [->|]; [|discriminate].
  rewrite append_cons. simpl. f_equal. now apply IH.
Qed.

Lemma prefix_append (p r : string) : String.prefix p (p +:+ r) = true.
Proof.
  induction p as [|c p IH]; [now destruct r|].
  rewrite append_cons. simpl. destruct (ascii_dec c c); [exact IH|congruence].
Qed.

Lemma substring_append (p r : string) :
  JsString.substring (String.length p) (p +:+ r) = r.
Proof. induction p as [|c p IH]; [reflexivity|]. rewrite append_cons. exact IH. Qed.

(** [endsWith] is the suffix relation. *)
Lemma endsWith_append (q p : string) : JsString.endsWith (q +:+ p) p = true.
Proof.
  induction q as [|c q IH].
  - change ("" +:+ p) with p.
    destruct p; cbn [JsString.endsWith]; now rewrite String.eqb_refl.
  - rewrite append_cons. cbn [JsString.endsWith]. rewrite IH. apply orb_true_r.
Qed.

Lemma endsWith_split (s p : string) :
  JsString.endsWith s p = true -> exists q, s = q +:+ p.
Proof.
  induction s as [|c s IH]; cbn [JsString.endsWith]; intros H.
  - apply orb_true_iff in H as [H|H]; [|discriminate].
    apply String.eqb_eq in H. subst. now exists "".
  - apply orb_true_iff in H as [H|H].
    + apply String.eqb_eq in H. subst. now exists "".
    + destruct (IH H) as [q ->]. now exists (String c q).
Qed.

Lemma endsWith_iff (s p : string) :
  JsString.endsWith s p = true <-> exists q, s = q +:+ p.
Proof.
  split; [apply endsWith_split|]. intros [q ->]. apply endsWith_append.
Qed.

Lemma substring_0_append (q r : string) :
  String.substring 0 (String.length q) (q +:+ r) = q.
Proof.
  induction q as [|c q IH].
  - simpl. now destruct ("" +:+ r).
  - rewrite append_cons. simpl. now rewrite IH.
Qed.

(** [slice(0, -1)] drops the last character. *)
Lemma slice_drop_last (q : string) (c : ascii) :
  JsString.slice (q +:+ String c "") 0 (-1) = q.
Proof.
  unfold JsString.slice. rewrite length_append. simpl String.length.
  replace (0 <? 0) with false by reflexivity.
  replace (-1 <? 0) with true by reflexivity.
  rewrite Z.min_l by lia.
  replace (Z.to_nat 0) with 0%nat by reflexivity.
  replace (Z.to_nat (Z.max (Z.max (Z.of_nat (String.length q + 1) + -1) 0 - 0) 0))
    with (String.length q) by lia.
  apply substring_0_append.
Qed.

End StringFacts.

(* ================================================================== *)
(** ** Percent-encoding and path segments *)

Section UriFacts.

Lemma all_chars_append (p : ascii -> bool) (a b : string) :
  Uri.all_chars p (a +:+ b) = Uri.all_chars p a && Uri.all_chars p b.
Proof.
  induction a as [|c a IH]; [reflexivity|].
  rewrite append_cons. simpl. now rewrite IH, andb_assoc.
Qed.

(** One character encodes to unreserved marks and [%] only. *)
Lemma encoded_one (c : ascii) :
  Uri.all_chars Uri.encoded_char
    (if Uri.unreserved c then String c EmptyString else Uri.escape c) = true.
Proof. destruct c as [[] [] [] [] [] [] [] []]; vm_compute; reflexivity. Qed.

Lemma encodeURIComponent_chars (s : string) :
  Uri.all_chars Uri.encoded_char (Uri.encodeURIComponent s) = true.
Proof.
  induction s as [|c s IH]; [reflexivity|].
  cbn [Uri.encodeURIComponent]. now rewrite all_chars_append, encoded_one, IH.
Qed.

Lemma all_chars_excludes (p : ascii -> bool) (s : string) (c : ascii) :
  p c = false -> Uri.all_chars p s = true -> JsString.includes s c = false.
Proof.
  intros Hc. induction s as [|d s IH]; [reflexivity|].
  simpl. intros H. apply andb_true_iff in H as [Hd Hs].
  rewrite (IH Hs), orb_false_r.
  destruct (Ascii.eqb_spec d c) as [->|]; [congruence|reflexivity].
Qed.

(** No encoded component holds a character that is neither an
    unreserved mark nor [%]: no slash, space, [?] or [#]. *)
Lemma encodeURIComponent_excludes (s : string) (c : ascii) :
  Uri.encoded_char c = false ->
  JsString.includes (Uri.encodeURIComponent s) c = false.
Proof.
  intros Hc. apply (all_chars_excludes Uri.encoded_char); [exact Hc|].
  apply encodeURIComponent_chars.
Qed.

Lemma split_whole (sep : ascii) (a : string) :
  JsString.includes a sep = false -> JsString.split sep a = [a].
Proof.
  induction a as [|c a IH]; [reflexivity|].
  simpl. intros H. apply orb_false_iff in H as [Hc Ha].
  now rewrite Hc, (IH Ha).
Qed.

(** A separator after a text without one closes the first segment. *)
Lemma split_first (sep : ascii) (a b : string) :
  JsString.includes a sep = false ->
  JsString.split sep (a +:+ String sep b) = a :: JsString.split sep b.
Proof.
  induction a as [|c a IH]; intros H.
  - change ("" +:+ String sep b) with (String sep b).
    simpl. now rewrite Ascii.eqb_refl.
  - simpl in H. apply orb_false_iff in H as [Hc Ha].
    rewrite append_cons. simpl. now rewrite Hc, (IH Ha).
Qed.

(** An unencoded identifier: encoding leaves it as it is. *)
Lemma encodeURIComponent_unreserved (s : string) :
  Uri.all_chars Uri.unreserved s = true -> Uri.encodeURIComponent s = s.
Proof.
  induction s as [|c s IH]; [reflexivity|].
  simpl. intros H. apply andb_true_iff in H as [Hc Hs].
  now rewrite Hc, (IH Hs).
Qed.

End UriFacts.

(* ================================================================== *)
(** ** The SSWS rewrite *)

Section Ssws.

Lemma startsWith_append (p r : string) : JsString.startsWith (p +:+ r) p = true.
Proof. apply prefix_append. Qed.

(** A header that starts with [SSWS ] does not start with [Bearer ]. *)
Lemma ssws_not_bearer (h : string) :
  JsString.startsWith h "SSWS " = true -> JsString.startsWith h "Bearer " = false.
Proof.
  intros H. apply prefix_split in H. rewrite H. reflexivity.
Qed.

Lemma sswsHeader_bearer (token : string) :
  Script.sswsHeader ("Bearer " +:+ token) =
    if JsString.startsWith token "SSWS " then token else "SSWS " +:+ token.
Proof.
  unfold Script.sswsHeader. rewrite (startsWith_append "Bearer " token).
  reflexivity.
Qed.

Lemma sswsHeader_other (h : string) :
  JsString.startsWith h "Bearer " = false -> Script.sswsHeader h = h.
Proof. unfold Script.sswsHeader. now intros ->. Qed.



Lemma dist_sswsHeader_idempotent (t : string) :
  Dist.sswsHeader (Dist.sswsHeader t) = Dist.sswsHeader t.
Proof.
  unfold Dist.sswsHeader at 2 3.
  destruct (JsString.startsWith t "SSWS ") eqn:Hs.
  - unfold Dist.sswsHeader. now rewrite Hs.
  - unfold Dist.sswsHeader. now rewrite (startsWith_append "SSWS " t).
Qed.

End Ssws.

(* ================================================================== *)
(** ** Runs: traces and outcomes *)

Section Runs.

Context {A B : Type}.

Lemma bind_normal (t : list Event) (a : A) (f : A -> Eff B) :
  Eff.bind (t, Normal a) f = (t ++ Eff.trace (f a), Eff.outcome (f a)).
Proof. unfold Eff.bind. now destruct (f a). Qed.

Lemma bind_throw (t : list Event) (e : JsVal) (f : A -> Eff B) :
  Eff.bind (t, Throw e) f = (t, Throw e).
Proof. reflexivity. Qed.

Lemma bind_lift_normal (a : A) (f : A -> Eff B) :
  Eff.bind (Eff.lift (Normal a)) f = f a.
Proof. unfold Eff.lift. rewrite bind_normal. now destruct (f a). Qed.

End Runs.

Lemma bind_console {B : Type} (stream : Console) (args : list JsVal)
    (f : unit -> Eff B) :
  Eff.bind (console stream args) f =
    (EvConsole stream args :: Eff.trace (f tt), Eff.outcome (f tt)).
Proof. unfold console, Eff.emit. now rewrite bind_normal. Qed.

(** The conversion to a string, by cases. *)
Lemma stringOf_convertible (v : JsVal) :
  Js.convertible v = true -> stringOf v = Normal (Js.ToString v).
Proof. unfold stringOf. now intros ->. Qed.

Lemma stringOf_unconvertible (v : JsVal) :
  Js.convertible v = false ->
  stringOf v = Throw (Js.newTypeError "Cannot convert object to primitive value").
Proof. unfold stringOf. now intros ->. Qed.

Lemma stringOf_normal (v : JsVal) (s : string) :
  stringOf v = Normal s -> Js.convertible v = true /\ s = Js.ToString v.
Proof.
  unfold stringOf. destruct (Js.convertible v); [|discriminate].
  intros H. injection H as <-. now split.
Qed.

Lemma plain_convertible (v : JsVal) : Js.plain v = true -> Js.convertible v = true.
Proof. now destruct v. Qed.

Lemma bind_interp {B : Type} (v : JsVal) (f : string -> Eff B) :
  Eff.bind (interp v) f =
    match stringOf v with
    | Normal s => f s
    | Throw e => ([], Throw e)
    end.
Proof.
  unfold interp. destruct (stringOf v); [apply bind_lift_normal|reflexivity].
Qed.

Lemma fetches_app (s t : list Event) : fetches (s ++ t) = fetches s ++ fetches t.
Proof.
  induction s as [|ev s IH]; [reflexivity|].
  destruct ev; simpl; now rewrite IH.
Qed.

Lemma In_fetches (req : Request) (t : list Event) :
  In (EvFetch req) t <-> In req (fetches t).
Proof.
  induction t as [|ev t IH]; [reflexivity|].
  destruct ev; simpl; rewrite <- IH; intuition (try discriminate; try congruence).
Qed.

(** The code after the call sends nothing. *)
Lemma handleResponse_fetches (w : World) (userId groupId : JsVal)
    (baseUrl : string) (response : Response) :
  fetches (Eff.trace (handleResponse w userId groupId baseUrl response)) = [].
Proof.
  unfold handleResponse. rewrite !bind_interp. destruct (ok response).
  - destruct (stringOf userId); [|reflexivity].
    rewrite bind_interp. now destruct (stringOf groupId).
  - destruct (json response) as [body|e]; [|reflexivity].
    rewrite bind_lift_normal.
    destruct (getProp body "errorSummary") as [summary|e]; [|reflexivity].
    rewrite bind_lift_normal.
    destruct (Js.truthy summary); [|reflexivity].
    rewrite bind_interp. now destruct (stringOf summary).
Qed.

(** The resolver of the header sends nothing to the target API. *)
Lemma getAuthorizationHeader_fetches (w : World) (context : Context) :
  fetches (Eff.trace (Utils.getAuthorizationHeader w context)) = [].
Proof.
  unfold Utils.getAuthorizationHeader.
  destruct (Utils.selectScheme context) as [[]|]; simpl;
    try reflexivity; now destruct (produceHeader w _).
Qed.

(** The run of [Script.invoke], stage by stage: an identifier that does
    not convert for the starting line, an address that does not resolve
    or a header that does not resolve ends it before anything is sent;
    otherwise exactly one request is sent, and the outcome is that of
    the code after the call on the response (or the rejection of
    [fetch]). *)
Lemma script_invoke_run (w : World) (params : gmap string JsVal) (context : Context) :
  let rp := Script.resolvedParams w params context in
  let userId := param rp "userId" in
  let groupId := param rp "groupId" in
  let run := Script.invoke w params context in
  match stringOf userId, stringOf groupId with
  | Throw e, _ | Normal _, Throw e =>
      fetches (Eff.trace run) = [] /\ Eff.outcome run = Throw e
  | Normal _, Normal _ =>
  match Utils.getBaseUrl rp context with
  | Throw e => fetches (Eff.trace run) = [] /\ Eff.outcome run = Throw e
  | Normal baseUrl =>
      match Eff.outcome (Utils.getAuthorizationHeader w context) with
      | Throw e => fetches (Eff.trace run) = [] /\ Eff.outcome run = Throw e
      | Normal h =>
          let req := request userId groupId baseUrl (Script.sswsHeader h) in
          fetches (Eff.trace run) = [req] /\
          Eff.outcome run =
            match fetch w req with
            | Normal response =>
                Eff.outcome (handleResponse w userId groupId baseUrl response)
            | Throw e => Throw e
            end
      end
  end
  end.
Proof.
  unfold Script.resolvedParams, Script.invoke.
  destruct (resolveJSONPathTemplates w params _) as [rp errors]. cbn [fst].
  set (userId := param rp "userId"). set (groupId := param rp "groupId").
  cbv zeta.
  pose proof (getAuthorizationHeader_fetches w context) as Hauth.
  assert (Hpre : forall k : Eff InvokeResult.t,
             fetches (Eff.trace
                        (match errors with
                         | [] => Eff.ret tt
                         | _ :: _ =>
                             console ConsoleWarn
                               [JStr "Template resolution errors:"; JArr errors]
                         end ;; k)) = fetches (Eff.trace k) /\
             Eff.outcome
               (match errors with
                | [] => Eff.ret tt
                | _ :: _ =>
                    console ConsoleWarn
                      [JStr "Template resolution errors:"; JArr errors]
                end ;; k) = Eff.outcome k).
  { intros k. destruct errors; [unfold Eff.ret; rewrite bind_normal|
                                rewrite bind_console]; now split. }
  match goal with
  | |- context [Eff.bind (match errors with _ => _ end) (fun _ => ?k)] =>
      destruct (Hpre k) as [-> ->]
  end.
  clear Hpre. rewrite bind_interp.
  destruct (stringOf userId) as [u|e] eqn:Hu; [|now split].
  rewrite bind_interp.
  destruct (stringOf groupId) as [g|e] eqn:Hg; [|now split].
  rewrite bind_console. cbn [Eff.trace Eff.outcome fst snd fetches].
  destruct (Utils.getBaseUrl rp context) as [baseUrl|e]; [|now split].
  rewrite bind_lift_normal.
  destruct (Utils.getAuthorizationHeader w context) as [ta [h|e]];
    cbn [Eff.trace Eff.outcome fst snd] in *; [|now split].
  rewrite (bind_normal ta h). cbn [Eff.trace Eff.outcome fst snd].
  rewrite fetches_app, Hauth. cbn [app].
  unfold Script.unassignUserFromGroup. rewrite bind_interp, Hu, bind_interp, Hg.
  apply stringOf_normal in Hu as [_ ->]. apply stringOf_normal in Hg as [_ ->].
  cbv beta zeta.
  change (mkRequest (requestUrl (JStr (Js.ToString userId))
                       (JStr (Js.ToString groupId)) baseUrl) "DELETE"
            (requestHeaders (Script.sswsHeader h)))
    with (request userId groupId baseUrl (Script.sswsHeader h)).
  generalize (request userId groupId baseUrl (Script.sswsHeader h)).
  intros req.
  pose proof (handleResponse_fetches w userId groupId baseUrl) as Hafter.
  destruct (fetch w req) as [response|e]; [|now split].
  specialize (Hafter response).
  destruct (handleResponse w userId groupId baseUrl response) as [th ch] eqn:Hh.
  cbn [Eff.trace Eff.outcome fst snd] in *.
  cbn. rewrite Hh. cbn. rewrite Hafter. now split.
Qed.

(** The run of [Dist.invoke], stage by stage: the starting line, the
    two validations, the address, the token, then one request. *)
Lemma dist_invoke_run (w : World) (params : gmap string JsVal) (context : Context) :
  let userId := param params "userId" in
  let groupId := param params "groupId" in
  let run := Dist.invoke w params context in
  match stringOf userId, stringOf groupId with
  | Throw e, _ | Normal _, Throw e =>
      fetches (Eff.trace run) = [] /\ Eff.outcome run = Throw e
  | Normal _, Normal _ =>
  if Dist.invalid userId then
    fetches (Eff.trace run) = [] /\
    Eff.outcome run = Throw (Js.newError "Invalid or missing userId parameter")
  else if Dist.invalid groupId then
    fetches (Eff.trace run) = [] /\
    Eff.outcome run = Throw (Js.newError "Invalid or missing groupId parameter")
  else
    match Utils.getBaseUrl params context with
    | Throw e => fetches (Eff.trace run) = [] /\ Eff.outcome run = Throw e
    | Normal baseUrl =>
        match Utils.material (secrets context) "BEARER_AUTH_TOKEN" with
        | None =>
            fetches (Eff.trace run) = [] /\
            Eff.outcome run =
              Throw (Js.newError "Missing required secret: BEARER_AUTH_TOKEN")
        | Some authToken =>
            let req := request userId groupId baseUrl (Dist.sswsHeader authToken) in
            fetches (Eff.trace run) = [req] /\
            Eff.outcome run =
              match fetch w req with
              | Normal response =>
                  Eff.outcome (handleResponse w userId groupId baseUrl response)
              | Throw e => Throw e
              end
        end
    end
  end.
Proof.
  unfold Dist.invoke. cbv zeta.
  set (userId := param params "userId"). set (groupId := param params "groupId").
  rewrite bind_interp.
  destruct (stringOf userId) as [u|e] eqn:Hu; [|now split].
  rewrite bind_interp.
  destruct (stringOf groupId) as [g|e] eqn:Hg; [|now split].
  rewrite bind_console. cbn [Eff.trace Eff.outcome fst snd fetches].
  destruct (Dist.invalid userId); [split; reflexivity|].
  destruct (Dist.invalid groupId); [split; reflexivity|].
  destruct (Utils.getBaseUrl params context) as [baseUrl|e]; [|split; reflexivity].
  rewrite bind_lift_normal.
  destruct (Utils.material (secrets context) "BEARER_AUTH_TOKEN") as [authToken|];
    [|split; reflexivity].
  unfold Dist.unassignUserFromGroup. rewrite bind_interp, Hu, bind_interp, Hg.
  apply stringOf_normal in Hu as [_ ->]. apply stringOf_normal in Hg as [_ ->].
  cbv beta zeta.
  change (mkRequest (requestUrl (JStr (Js.ToString userId))
                       (JStr (Js.ToString groupId)) baseUrl) "DELETE"
            (requestHeaders (Dist.sswsHeader authToken)))
    with (request userId groupId baseUrl (Dist.sswsHeader authToken)).
  generalize (request userId groupId baseUrl (Dist.sswsHeader authToken)).
  intros req.
  pose proof (handleResponse_fetches w userId groupId baseUrl) as Hafter.
  destruct (fetch w req) as [response|e]; [|split; reflexivity].
  specialize (Hafter response).
  destruct (handleResponse w userId groupId baseUrl response) as [th ch] eqn:Hh.
  cbn [Eff.trace Eff.outcome fst snd] in *.
  cbn. rewrite Hh. cbn. rewrite Hafter. split; reflexivity.
Qed.

(** A run that sent nothing holds no request: closes the stages that end
    before the call. *)
Ltac sent_nothing Hrun Hin :=
  let Ht := fresh "Ht" in
  destruct Hrun as [Ht _]; rewrite Ht in Hin; destruct Hin.

(** The stage of the starting line: a run that sent a request converted
    both identifiers. *)
Ltac logged_ids Hrun Hin :=
  repeat match type of Hrun with
         | match stringOf ?a with _ => _ end =>
             let Hs := fresh "Hstr" in
             destruct (stringOf a) eqn:Hs; [|sent_nothing Hrun Hin]
         end.

(** A request in the trace of [Script.invoke] is the one request of the
    run: the address resolved, and the outcome is that of the code after
    the call. *)
Lemma script_invoke_answered (w : World) (params : gmap string JsVal)
    (context : Context) (req : Request) (response : Response) :
  In (EvFetch req) (Eff.trace (Script.invoke w params context)) ->
  fetch w req = Normal response ->
  exists baseUrl,
    Utils.getBaseUrl (Script.resolvedParams w params context) context = Normal baseUrl /\
    Eff.outcome (Script.invoke w params context) =
      Eff.outcome
        (handleResponse w
           (param (Script.resolvedParams w params context) "userId")
           (param (Script.resolvedParams w params context) "groupId")
           baseUrl response).
Proof.
  intros Hin Hresp. apply In_fetches in Hin.
  pose proof (script_invoke_run w params context) as Hrun. cbv zeta in Hrun.
  logged_ids Hrun Hin.
  destruct (Utils.getBaseUrl _ context) as [baseUrl|e].
  - destruct (Eff.outcome (Utils.getAuthorizationHeader w context)) as [h|e].
    + destruct Hrun as [Ht Ho]. rewrite Ht in Hin.
      destruct Hin as [<-|[]]. rewrite Hresp in Ho. now exists baseUrl.
    + sent_nothing Hrun Hin.
  - sent_nothing Hrun Hin.
Qed.

(** The same for [Dist.invoke]: the inputs passed the validation too. *)
Lemma dist_invoke_answered (w : World) (params : gmap string JsVal)
    (context : Context) (req : Request) (response : Response) :
  In (EvFetch req) (Eff.trace (Dist.invoke w params context)) ->
  fetch w req = Normal response ->
  Dist.invalid (param params "userId") = false /\
  Dist.invalid (param params "groupId") = false /\
  exists baseUrl,
    Utils.getBaseUrl params context = Normal baseUrl /\
    Eff.outcome (Dist.invoke w params context) =
      Eff.outcome
        (handleResponse w (param params "userId") (param params "groupId")
           baseUrl response).
Proof.
  intros Hin Hresp. apply In_fetches in Hin.
  pose proof (dist_invoke_run w params context) as Hrun. cbv zeta in Hrun.
  logged_ids Hrun Hin.
  destruct (Dist.invalid (param params "userId"));
    [sent_nothing Hrun Hin|].
  destruct (Dist.invalid (param params "groupId"));
    [sent_nothing Hrun Hin|].
  destruct (Utils.getBaseUrl params context) as [baseUrl|e];
    [|sent_nothing Hrun Hin].
  destruct (Utils.material (secrets context) "BEARER_AUTH_TOKEN");
    [|sent_nothing Hrun Hin].
  destruct Hrun as [Ht Ho]. rewrite Ht in Hin. destruct Hin as [<-|[]].
  rewrite Hresp in Ho. repeat split. now exists baseUrl.
Qed.

(* ================================================================== *)
(** ** The code after the call, case by case *)

Section AfterTheCall.

Variables (w : World) (userId groupId : JsVal) (baseUrl : string).
Variable response : Response.

Lemma handleResponse_ok :
  Js.convertible userId = true ->
  Js.convertible groupId = true ->
  ok response = true ->
  Eff.outcome (handleResponse w userId groupId baseUrl response) =
    Normal (InvokeResult.mk userId groupId true baseUrl (now w)).
Proof.
  intros Hu Hg Hok. unfold handleResponse.
  rewrite Hok, bind_interp, (stringOf_convertible _ Hu).
  rewrite bind_interp, (stringOf_convertible _ Hg). reflexivity.
Qed.

Hypothesis Hfailed : ok response = false.

Lemma handleResponse_summary (body summary : JsVal) :
  json response = Normal body ->
  getProp body "errorSummary" = Normal summary ->
  Js.truthy summary = true ->
  Js.convertible summary = true ->
  Eff.outcome (handleResponse w userId groupId baseUrl response) =
    Throw (JObj (ErrorObject "Error")
             [("message",
               JStr ("Failed to remove user from group: " +:+ Js.ToString summary));
              ("statusCode", JNum (status response))]).
Proof.
  intros Hjson Hprop Htruthy Hconv. unfold handleResponse.
  rewrite Hfailed, Hjson, bind_lift_normal, Hprop, bind_lift_normal, Htruthy.
  rewrite bind_interp, (stringOf_convertible _ Hconv). reflexivity.
Qed.

Lemma handleResponse_unprintable (body summary : JsVal) :
  json response = Normal body ->
  getProp body "errorSummary" = Normal summary ->
  Js.truthy summary = true ->
  Js.convertible summary = false ->
  Eff.outcome (handleResponse w userId groupId baseUrl response) =
    Throw (JObj (ErrorObject "Error")
             [("message",
               JStr ("Failed to remove user from group: HTTP "
                     +:+ Js.ToString (JNum (status response))));
              ("statusCode", JNum (status response))]).
Proof.
  intros Hjson Hprop Htruthy Hconv. unfold handleResponse.
  rewrite Hfailed, Hjson, bind_lift_normal, Hprop, bind_lift_normal, Htruthy.
  rewrite bind_interp, (stringOf_unconvertible _ Hconv). reflexivity.
Qed.

Lemma handleResponse_falsy (body summary : JsVal) :
  json response = Normal body ->
  getProp body "errorSummary" = Normal summary ->
  Js.truthy summary = false ->
  Eff.outcome (handleResponse w userId groupId baseUrl response) =
    Throw (JObj (ErrorObject "Error")
             [("message",
               JStr ("Failed to remove user from group: HTTP "
                     +:+ Js.ToString (JNum (status response))));
              ("statusCode", JNum (status response))]).
Proof.
  intros Hjson Hprop Hfalsy. unfold handleResponse.
  rewrite Hfailed, Hjson, bind_lift_normal, Hprop, bind_lift_normal, Hfalsy.
  reflexivity.
Qed.

Lemma handleResponse_unreadable (body e : JsVal) :
  json response = Normal body ->
  getProp body "errorSummary" = Throw e ->
  Eff.outcome (handleResponse w userId groupId baseUrl response) =
    Throw (JObj (ErrorObject "Error")
             [("message",
               JStr ("Failed to remove user from group: HTTP "
                     +:+ Js.ToString (JNum (status response))));
              ("statusCode", JNum (status response))]).
Proof.
  intros Hjson Hprop. unfold handleResponse.
  rewrite Hfailed, Hjson, bind_lift_normal, Hprop. reflexivity.
Qed.

Lemma handleResponse_not_json (e : JsVal) :
  json response = Throw e ->
  Eff.outcome (handleResponse w userId groupId baseUrl response) =
    Throw (JObj (ErrorObject "Error")
             [("message",
               JStr ("Failed to remove user from group: HTTP "
                     +:+ Js.ToString (JNum (status response))));
              ("statusCode", JNum (status response))]).
Proof. intros Hjson. unfold handleResponse. rewrite Hfailed, Hjson. reflexivity. Qed.

(** Whatever the body, the error thrown is an [Error] with a message
    and the status code of the response. *)
Lemma handleResponse_failed :
  exists message,
    Eff.outcome (handleResponse w userId groupId baseUrl response) =
      Throw (JObj (ErrorObject "Error")
               [("message", JStr message);
                ("statusCode", JNum (status response))]).
Proof.
  destruct (json response) as [body|e] eqn:Hjson;
    [|eexists; now apply (handleResponse_not_json e)].
  destruct (getProp body "errorSummary") as [summary|e] eqn:Hprop;
    [|eexists; now apply (handleResponse_unreadable body e)].
  destruct (Js.truthy summary) eqn:Ht;
    [|eexists; now apply (handleResponse_falsy body summary)].
  destruct (Js.convertible summary) eqn:Hc; eexists;
    [now apply (handleResponse_summary body summary)
    |now apply (handleResponse_unprintable body summary)].
Qed.

End AfterTheCall.

(** Reading [errorSummary] off a parsed object. *)
Lemma getProp_own (cls : ObjClass) (props : list (string * JsVal)) (k : string)
    (v : JsVal) :
  Js.ownProp k props = Some v -> getProp (JObj cls props) k = Normal v.
Proof. unfold getProp. now intros ->. Qed.

Lemma getProp_plain_absent (props : list (string * JsVal)) (k : string) :
  Js.ownProp k props = None -> getProp (JObj PlainObject props) k = Normal JUndefined.
Proof. unfold getProp. now intros ->. Qed.

(* ================================================================== *)
(** ** Validation of the identifiers *)

(** The check [!v || typeof v !== 'string'] passes the non-empty strings
    and nothing else. *)
Lemma invalid_false_iff (v : JsVal) :
  Dist.invalid v = false <-> exists s, v = JStr s /\ s <> "".
Proof.
  unfold Dist.invalid. split.
  - destruct v as [| | b | n | s | items | cls props]; cbn; try discriminate;
      try (destruct b; discriminate); try (destruct (n =? 0); discriminate).
    intros H. exists s. split; [reflexivity|].
    intros ->. discriminate.
  - intros [s [-> Hs]]. cbn. destruct (String.eqb_spec s ""); [contradiction|reflexivity].
Qed.

(** An identifier that passes the check converts to a string. *)
Lemma valid_convertible (v : JsVal) :
  Dist.invalid v = false -> Js.convertible v = true.
Proof. intros H. apply invalid_false_iff in H as [s [-> _]]. reflexivity. Qed.

(** The bundle rejects such an input before it sends anything: with the
    validation error naming a field at fault when both identifiers
    convert to strings for the starting line, and with the [TypeError]
    of that line when one does not. *)
Lemma dist_invoke_validates (w : World) (params : gmap string JsVal)
    (context : Context) :
  Dist.invalid (param params "userId") = true \/
  Dist.invalid (param params "groupId") = true ->
  fetches (Eff.trace (Dist.invoke w params context)) = [] /\
  (Js.convertible (param params "userId") = true ->
   Js.convertible (param params "groupId") = true ->
   exists field,
     (field = "userId" \/ field = "groupId") /\
     Dist.invalid (param params field) = true /\
     Eff.outcome (Dist.invoke w params context) =
       Throw (Js.newError ("Invalid or missing " +:+ field +:+ " parameter"))) /\
  (Js.convertible (param params "userId") = false \/
   Js.convertible (param params "groupId") = false ->
   exists message,
     Eff.outcome (Dist.invoke w params context) = Throw (Js.newTypeError message)).
Proof.
  intros H. pose proof (dist_invoke_run w params context) as Hrun. cbv zeta in Hrun.
  unfold stringOf in Hrun.
  destruct (Js.convertible (param params "userId")) eqn:Hcu.
  - destruct (Js.convertible (param params "groupId")) eqn:Hcg.
    + destruct (Dist.invalid (param params "userId")) eqn:Hu.
      * destruct Hrun as [Ht Ho]. split; [exact Ht|]. split.
        -- intros _ _. exists "userId". now repeat split; [left| |].
        -- now intros [?|?].
      * destruct H as [H|H]; [discriminate|]. rewrite H in Hrun.
        destruct Hrun as [Ht Ho]. split; [exact Ht|]. split.
        -- intros _ _. exists "groupId". now repeat split; [right| |].
        -- now intros [?|?].
    + destruct Hrun as [Ht Ho]. split; [exact Ht|]. split; [discriminate|].
      intros _. eexists. exact Ho.
  - destruct Hrun as [Ht Ho]. split; [exact Ht|]. split; [discriminate|].
    intros _. eexists. exact Ho.
Qed.

(** C1 (the defect): [invoke] of [script.mjs] has no validation.  On the
    input of the test suite without its [userId], with the bearer token
    configured and a 204 answer, it sends the DELETE with the text
    [undefined] as the user segment and returns the record of a removal;
    it does not fail before the call. *)
Theorem script_invoke_sends_missing_userId :
  Fixture.paramsNoUser !! "userId" = None /\
  fetches (Eff.trace (Script.invoke (Fixture.world (Normal Fixture.noContent))
                        Fixture.paramsNoUser Fixture.mockContext)) =
    [mkRequest "https://example.okta.com/api/v1/groups/group456/users/undefined"
       "DELETE"
       [("Authorization", "SSWS test-okta-token-123456");
        ("Accept", "application/json");
        ("Content-Type", "application/json")]] /\
  Eff.outcome (Script.invoke (Fixture.world (Normal Fixture.noContent))
                 Fixture.paramsNoUser Fixture.mockContext) =
    Normal (InvokeResult.mk JUndefined (JStr "group456") true
              "https://example.okta.com" "2024-01-15T10:30:00.000Z").
Proof. vm_compute. repeat split. Qed.

(** On the same input the bundle fails with the validation error. *)
Example dist_invoke_rejects_missing_userId :
  Dist.invoke (Fixture.world (Normal Fixture.noContent))
    Fixture.paramsNoUser Fixture.mockContext =
  ([EvConsole ConsoleLog
      [JStr "Starting Okta user group removal: user undefined from group group456"]],
   Throw (Js.newError "Invalid or missing userId parameter")).
Proof. vm_compute. reflexivity. Qed.

(* ================================================================== *)
(** ** Success *)

(** C2: for non-empty [userId] and [groupId], whenever the request was
    answered by a response with [ok], [invoke] returns the record with
    [removed: true], the two identifiers as received, the resolved base
    URL as [address], and the time of completion as [removedAt]. *)
Theorem script_invoke_success (w : World) (params : gmap string JsVal)
    (context : Context) (req : Request) (response : Response) (u g : string) :
  param (Script.resolvedParams w params context) "userId" = JStr u -> u <> "" ->
  param (Script.resolvedParams w params context) "groupId" = JStr g -> g <> "" ->
  In (EvFetch req) (Eff.trace (Script.invoke w params context)) ->
  fetch w req = Normal response ->
  ok response = true ->
  exists baseUrl,
    Utils.getBaseUrl (Script.resolvedParams w params context) context = Normal baseUrl /\
    Eff.outcome (Script.invoke w params context) =
      Normal (InvokeResult.mk (JStr u) (JStr g) true baseUrl (now w)).
Proof.
  intros Hu _ Hg _ Hin Hresp Hok.
  destruct (script_invoke_answered w params context req response Hin Hresp)
    as [baseUrl [Hbase Hout]].
  exists baseUrl. split; [exact Hbase|].
  rewrite Hout, Hu, Hg. now apply handleResponse_ok.
Qed.

Lemma script_invoke_success_witness :
  exists baseUrl,
    Utils.getBaseUrl
      (Script.resolvedParams (Fixture.world (Normal Fixture.noContent))
         Fixture.params Fixture.mockContext) Fixture.mockContext = Normal baseUrl /\
    Eff.outcome (Script.invoke (Fixture.world (Normal Fixture.noContent))
                   Fixture.params Fixture.mockContext) =
      Normal (InvokeResult.mk (JStr "user123") (JStr "group456") true baseUrl
                "2024-01-15T10:30:00.000Z").
Proof.
  apply (script_invoke_success (Fixture.world (Normal Fixture.noContent))
           Fixture.params Fixture.mockContext
           (request (JStr "user123") (JStr "group456")
              "https://example.okta.com" "SSWS test-okta-token-123456")
           Fixture.noContent "user123" "group456").
  - reflexivity.
  - discriminate.
  - reflexivity.
  - discriminate.
  - vm_compute. right. left. reflexivity.
  - reflexivity.
  - reflexivity.
Defined.

(** The bundle returns the same record. *)
Lemma dist_invoke_success (w : World) (params : gmap string JsVal)
    (context : Context) (req : Request) (response : Response) :
  In (EvFetch req) (Eff.trace (Dist.invoke w params context)) ->
  fetch w req = Normal response ->
  ok response = true ->
  exists u g baseUrl,
    param params "userId" = JStr u /\ u <> "" /\
    param params "groupId" = JStr g /\ g <> "" /\
    Utils.getBaseUrl params context = Normal baseUrl /\
    Eff.outcome (Dist.invoke w params context) =
      Normal (InvokeResult.mk (JStr u) (JStr g) true baseUrl (now w)).
Proof.
  intros Hin Hresp Hok.
  destruct (dist_invoke_answered w params context req response Hin Hresp)
    as [Hu [Hg [baseUrl [Hbase Hout]]]].
  apply invalid_false_iff in Hu as [u [Hu Hune]].
  apply invalid_false_iff in Hg as [g [Hg Hgne]].
  exists u, g, baseUrl. repeat split; try assumption.
  rewrite Hout, Hu, Hg. now apply handleResponse_ok.
Qed.

(* ================================================================== *)
(** ** Failure responses *)

(** C3, as the code has it: whenever the request was answered by a
    response without [ok], [invoke] throws an [Error] carrying the status
    code, whose message is [Failed to remove user from group: <summary>]
    when the body is a JSON object whose [errorSummary] is a non-empty
    string (embedded as it is), and
    [Failed to remove user from group: HTTP <status>] when the body is
    not JSON, is [null], is an object without [errorSummary], or holds a
    falsy one. *)
Theorem script_invoke_failure (w : World) (params : gmap string JsVal)
    (context : Context) (req : Request) (response : Response) :
  In (EvFetch req) (Eff.trace (Script.invoke w params context)) ->
  fetch w req = Normal response ->
  ok response = false ->
  exists message,
    Eff.outcome (Script.invoke w params context) =
      Throw (JObj (ErrorObject "Error")
               [("message", JStr message);
                ("statusCode", JNum (status response))]) /\
    (forall cls props s,
        json response = Normal (JObj cls props) ->
        Js.ownProp "errorSummary" props = Some (JStr s) ->
        s <> "" ->
        message = "Failed to remove user from group: " +:+ s) /\
    (forall e,
        json response = Throw e ->
        message = "Failed to remove user from group: HTTP "
                    +:+ Js.ToString (JNum (status response))) /\
    (json response = Normal JNull ->
     message = "Failed to remove user from group: HTTP "
                 +:+ Js.ToString (JNum (status response))) /\
    (forall props,
        json response = Normal (JObj PlainObject props) ->
        Js.ownProp "errorSummary" props = None ->
        message = "Failed to remove user from group: HTTP "
                    +:+ Js.ToString (JNum (status response))) /\
    (forall cls props summary,
        json response = Normal (JObj cls props) ->
        Js.ownProp "errorSummary" props = Some summary ->
        Js.truthy summary = false ->
        message = "Failed to remove user from group: HTTP "
                    +:+ Js.ToString (JNum (status response))).
Proof.
  intros Hin Hresp Hfailed.
  destruct (script_invoke_answered w params context req response Hin Hresp)
    as [baseUrl [_ Hout]].
  set (userId := param _ "userId") in Hout. set (groupId := param _ "groupId") in Hout.
  destruct (handleResponse_failed w userId groupId baseUrl response Hfailed)
    as [message Hmsg].
  exists message. rewrite Hout. split; [exact Hmsg|].
  repeat split.
  - intros cls props s Hjson Hown Hs.
    rewrite (handleResponse_summary w userId groupId baseUrl response Hfailed
               (JObj cls props) (JStr s) Hjson (getProp_own _ _ _ _ Hown))
      in Hmsg.
    + now inversion Hmsg.
    + cbn. now destruct (String.eqb_spec s "").
    + reflexivity.
  - intros e Hjson.
    rewrite (handleResponse_not_json w userId groupId baseUrl response Hfailed e Hjson)
      in Hmsg.
    now inversion Hmsg.
  - intros Hjson.
    rewrite (handleResponse_unreadable w userId groupId baseUrl response Hfailed
               JNull _ Hjson eq_refl) in Hmsg.
    now inversion Hmsg.
  - intros props Hjson Hown.
    rewrite (handleResponse_falsy w userId groupId baseUrl response Hfailed
               (JObj PlainObject props) JUndefined Hjson
               (getProp_plain_absent _ _ Hown) eq_refl) in Hmsg.
    now inversion Hmsg.
  - intros cls props summary Hjson Hown Hfalsy.
    rewrite (handleResponse_falsy w userId groupId baseUrl response Hfailed
               (JObj cls props) summary Hjson (getProp_own _ _ _ _ Hown) Hfalsy)
      in Hmsg.
    now inversion Hmsg.
Qed.

Lemma script_invoke_failure_witness :
  exists message,
    Eff.outcome (Script.invoke (Fixture.world (Normal Fixture.notFound))
                   Fixture.params Fixture.mockContext) =
      Throw (JObj (ErrorObject "Error")
               [("message", JStr message); ("statusCode", JNum 404)]) /\
    message =
      "Failed to remove user from group: Not found: User user123 not found in group group456".
Proof.
  destruct (script_invoke_failure (Fixture.world (Normal Fixture.notFound))
              Fixture.params Fixture.mockContext
              (request (JStr "user123") (JStr "group456")
                 "https://example.okta.com" "SSWS test-okta-token-123456")
              Fixture.notFound)
    as [message [Hout [Hstr _]]].
  - vm_compute. right. left. reflexivity.
  - reflexivity.
  - reflexivity.
  - exists message. split; [exact Hout|].
    apply (Hstr PlainObject
             [("errorCode", JStr "E0000007");
              ("errorSummary", JStr "Not found: User user123 not found in group group456");
              ("errorLink", JStr "E0000007");
              ("errorId", JStr "oae123")]);
      [reflexivity | reflexivity | discriminate].
Defined.

(** C3 as stated fails on a body whose [errorSummary] is the empty
    string: the body holds the field, and the message is the one of the
    status code, not the prefix followed by the (empty) summary. *)
Lemma script_invoke_empty_summary :
  json Fixture.emptySummary = Normal (JObj PlainObject [("errorSummary", JStr "")]) /\
  getProp (JObj PlainObject [("errorSummary", JStr "")]) "errorSummary" = Normal (JStr "") /\
  Eff.outcome (Script.invoke (Fixture.world (Normal Fixture.emptySummary))
                 Fixture.params Fixture.mockContext) =
    Throw (JObj (ErrorObject "Error")
             [("message", JStr "Failed to remove user from group: HTTP 404");
              ("statusCode", JNum 404)]) /\
  Eff.outcome (Script.invoke (Fixture.world (Normal Fixture.emptySummary))
                 Fixture.params Fixture.mockContext) <>
    Throw (JObj (ErrorObject "Error")
             [("message", JStr ("Failed to remove user from group: " +:+ ""));
              ("statusCode", JNum 404)]).
Proof. vm_compute. repeat split. discriminate. Qed.

(** C10: whenever the request was answered by a response without [ok]
    whose JSON body holds an [errorSummary] that is falsy (the empty
    string, [0], [false], [null]), [invoke] throws the message of the
    status code, as if the field were absent. *)
Theorem script_invoke_falsy_summary (w : World) (params : gmap string JsVal)
    (context : Context) (req : Request) (response : Response)
    (cls : ObjClass) (props : list (string * JsVal)) (summary : JsVal) :
  In (EvFetch req) (Eff.trace (Script.invoke w params context)) ->
  fetch w req = Normal response ->
  ok response = false ->
  json response = Normal (JObj cls props) ->
  Js.ownProp "errorSummary" props = Some summary ->
  Js.truthy summary = false ->
  Eff.outcome (Script.invoke w params context) =
    Throw (JObj (ErrorObject "Error")
             [("message",
               JStr ("Failed to remove user from group: HTTP "
                     +:+ Js.ToString (JNum (status response))));
              ("statusCode", JNum (status response))]).
Proof.
  intros Hin Hresp Hfailed Hjson Hown Hfalsy.
  destruct (script_invoke_answered w params context req response Hin Hresp)
    as [baseUrl [_ Hout]].
  rewrite Hout.
  now apply (handleResponse_falsy _ _ _ _ _ Hfailed (JObj cls props) summary Hjson
               (getProp_own _ _ _ _ Hown)).
Qed.

Lemma script_invoke_falsy_summary_witness :
  Eff.outcome (Script.invoke (Fixture.world (Normal Fixture.emptySummary))
                 Fixture.params Fixture.mockContext) =
    Throw (JObj (ErrorObject "Error")
             [("message", JStr "Failed to remove user from group: HTTP 404");
              ("statusCode", JNum 404)]).
Proof.
  apply (script_invoke_falsy_summary (Fixture.world (Normal Fixture.emptySummary))
           Fixture.params Fixture.mockContext
           (request (JStr "user123") (JStr "group456")
              "https://example.okta.com" "SSWS test-okta-token-123456")
           Fixture.emptySummary PlainObject [("errorSummary", JStr "")] (JStr "")).
  - vm_compute. right. left. reflexivity.
  - reflexivity.
  - reflexivity.
  - reflexivity.
  - reflexivity.
  - reflexivity.
Defined.

(* ================================================================== *)
(** ** The authorization header *)


(** The header the request carries is the rewritten one. *)
Lemma script_invoke_authorization (w : World) (params : gmap string JsVal)
    (context : Context) (req : Request) :
  In (EvFetch req) (Eff.trace (Script.invoke w params context)) ->
  exists h,
    Eff.outcome (Utils.getAuthorizationHeader w context) = Normal h /\
    headers req = requestHeaders (Script.sswsHeader h).
Proof.
  intros Hin. apply In_fetches in Hin.
  pose proof (script_invoke_run w params context) as Hrun. cbv zeta in Hrun.
  logged_ids Hrun Hin.
  destruct (Utils.getBaseUrl _ context) as [baseUrl|e].
  - destruct (Eff.outcome (Utils.getAuthorizationHeader w context)) as [h|e].
    + destruct Hrun as [Ht _]. rewrite Ht in Hin. destruct Hin as [<-|[]].
      now exists h.
    + sent_nothing Hrun Hin.
  - sent_nothing Hrun Hin.
Qed.

Example sswsHeader_examples :
  Script.sswsHeader "Bearer test-okta-token-123456" = "SSWS test-okta-token-123456" /\
  Script.sswsHeader "Bearer SSWS 00abc" = "SSWS 00abc" /\
  Script.sswsHeader "Basic dXNlcjpwYXNz" = "Basic dXNlcjpwYXNz".
Proof. repeat split. Qed.

(** Without material no scheme is selected. *)
Lemma selectScheme_no_secrets (context : Context) :
  (forall k, Utils.material (secrets context) k = None) ->
  Utils.selectScheme context = None.
Proof. intros H. unfold Utils.selectScheme. now rewrite !H. Qed.




(** The bundle reads the bearer token only, and names it in its error. *)
Lemma dist_invoke_no_token (w : World) (params : gmap string JsVal)
    (context : Context) :
  Utils.material (secrets context) "BEARER_AUTH_TOKEN" = None ->
  fetches (Eff.trace (Dist.invoke w params context)) = [] /\
  (forall baseUrl,
      Dist.invalid (param params "userId") = false ->
      Dist.invalid (param params "groupId") = false ->
      Utils.getBaseUrl params context = Normal baseUrl ->
      Eff.outcome (Dist.invoke w params context) =
        Throw (Js.newError "Missing required secret: BEARER_AUTH_TOKEN")).
Proof.
  intros Hnone.
  pose proof (dist_invoke_run w params context) as Hrun. cbv zeta in Hrun.
  rewrite Hnone in Hrun. unfold stringOf in Hrun.
  destruct (Js.convertible (param params "userId")) eqn:Hcu;
    [|destruct Hrun as [Ht _]; split; [exact Ht|];
      intros b Hu _ _; apply valid_convertible in Hu; congruence].
  destruct (Js.convertible (param params "groupId")) eqn:Hcg;
    [|destruct Hrun as [Ht _]; split; [exact Ht|];
      intros b _ Hg _; apply valid_convertible in Hg; congruence].
  destruct (Dist.invalid (param params "userId"));
    [destruct Hrun as [Ht _]; split; [exact Ht|discriminate]|].
  destruct (Dist.invalid (param params "groupId"));
    [destruct Hrun as [Ht _]; split; [exact Ht|discriminate]|].
  destruct (Utils.getBaseUrl params context) as [baseUrl|e];
    destruct Hrun as [Ht Ho]; (split; [exact Ht|]).
  - intros b _ _ _. exact Ho.
  - discriminate.
Qed.

(* ================================================================== *)
(** ** The base URL *)

Lemma append_char_inj (q b : string) (c : ascii) :
  q +:+ String c "" = b +:+ String c "" -> q = b.
Proof.
  revert b. induction q as [|x q IH]; intros [|y b] H.
  - reflexivity.
  - rewrite append_cons in H. change ("" +:+ String c "") with (String c "") in H.
    injection H as _ H. now destruct b.
  - rewrite append_cons in H. change ("" +:+ String c "") with (String c "") in H.
    injection H as _ H. now destruct q.
  - rewrite !append_cons in H. injection H as -> H. f_equal. now apply IH.
Qed.

(** C6, as the code has it: a non-empty address, supplied or defaulted,
    resolves to itself without its last character when that is a slash,
    and to itself otherwise, so the base URL ends with a slash exactly
    when the address ends with two; when neither the parameter nor the
    variable [ADDRESS] holds an address, resolution fails with the error
    [No URL specified...]. *)
Theorem getBaseUrl_resolution (params : gmap string JsVal) (context : Context) :
  (forall a,
      Js.orElse (param params "address") (setting (environment context) "ADDRESS")
        = JStr a ->
      a <> "" ->
      exists baseUrl,
        Utils.getBaseUrl params context = Normal baseUrl /\
        (forall b, a = b +:+ "/" -> baseUrl = b) /\
        (JsString.endsWith a "/" = false -> baseUrl = a) /\
        (JsString.endsWith baseUrl "/" = true <-> JsString.endsWith a "//" = true)) /\
  (Js.truthy (param params "address") = false ->
   Js.truthy (setting (environment context) "ADDRESS") = false ->
   Utils.getBaseUrl params context =
     Throw (Js.newError
              "No URL specified. Provide address parameter or ADDRESS environment variable")).
Proof.
  split.
  - intros a Ha Hne. unfold Utils.getBaseUrl. rewrite Ha.
    assert (Ht : Js.truthy (JStr a) = true)
      by (cbn; now destruct (String.eqb_spec a "")).
    rewrite Ht. cbn [negb].
    destruct (JsString.endsWith a "/") eqn:He.
    + destruct (endsWith_split _ _ He) as [q ->].
      exists q. rewrite slice_drop_last. split; [reflexivity|].
      split; [intros b Hb; now apply append_char_inj in Hb|].
      split; [discriminate|]. split; intros H.
      * destruct (endsWith_split _ _ H) as [q' ->].
        rewrite append_assoc. apply endsWith_append.
      * destruct (endsWith_split _ _ H) as [q' Hq'].
        change "//" with ("/" +:+ "/") in Hq'. rewrite <- append_assoc in Hq'.
        apply append_char_inj in Hq'. subst q. apply endsWith_append.
    + exists a. split; [reflexivity|].
      split; [intros b ->; now rewrite endsWith_append in He|].
      split; [reflexivity|]. split; intros H.
      * congruence.
      * destruct (endsWith_split _ _ H) as [q' ->].
        change "//" with ("/" +:+ "/") in He. rewrite <- append_assoc in He.
        now rewrite endsWith_append in He.
  - intros Hp Henv. unfold Utils.getBaseUrl, Js.orElse. now rewrite Hp, Henv.
Qed.

Lemma getBaseUrl_resolution_witness :
  Utils.getBaseUrl {[ "address" := JStr "https://example.okta.com/" ]}
    Fixture.mockContext = Normal "https://example.okta.com" /\
  Utils.getBaseUrl ∅ Fixture.mockContext =
    Throw (Js.newError
             "No URL specified. Provide address parameter or ADDRESS environment variable").
Proof.
  destruct (getBaseUrl_resolution {[ "address" := JStr "https://example.okta.com/" ]}
              Fixture.mockContext) as [Hset _].
  destruct (Hset "https://example.okta.com/") as [baseUrl [Hres [Hstrip _]]];
    [reflexivity | discriminate |].
  split.
  - rewrite Hres. f_equal. apply Hstrip. reflexivity.
  - apply (getBaseUrl_resolution ∅ Fixture.mockContext); reflexivity.
Defined.

(** C6 as stated fails on an address that ends with two slashes: one is
    removed, and the base URL still ends with the other. *)
Lemma getBaseUrl_double_slash :
  Utils.getBaseUrl {[ "address" := JStr "https://example.okta.com//" ]}
    Fixture.mockContext = Normal "https://example.okta.com/" /\
  JsString.endsWith "https://example.okta.com/" "/" = true.
Proof. vm_compute. split; reflexivity. Qed.

(* ================================================================== *)
(** ** The request URL *)

(** C7: the request goes to the base URL followed by [/api/v1/groups/],
    the encoded [groupId], [/users/] and the encoded [userId]; each
    identifier is encoded on its own, no encoded identifier holds a
    slash, and so the path splits into the segments [api], [v1],
    [groups], the group, [users], the user: no segment spans both. *)
Theorem request_url_segments (w : World) (userId groupId baseUrl authHeader : string) :
  let encodedUserId := Uri.encodeURIComponent userId in
  let encodedGroupId := Uri.encodeURIComponent groupId in
  let path := "/api/v1/groups/" +:+ encodedGroupId +:+ "/users/" +:+ encodedUserId in
  fetches (Eff.trace (Script.unassignUserFromGroup w (JStr userId) (JStr groupId)
                        baseUrl authHeader)) =
    [mkRequest (baseUrl +:+ path) "DELETE" (requestHeaders authHeader)] /\
  JsString.includes encodedGroupId "/" = false /\
  JsString.includes encodedUserId "/" = false /\
  JsString.split "/" path =
    [""; "api"; "v1"; "groups"; encodedGroupId; "users"; encodedUserId].
Proof.
  cbv zeta.
  assert (Hg : JsString.includes (Uri.encodeURIComponent groupId) "/" = false)
    by now apply encodeURIComponent_excludes.
  assert (Hu : JsString.includes (Uri.encodeURIComponent userId) "/" = false)
    by now apply encodeURIComponent_excludes.
  split; [|split; [exact Hg|split; [exact Hu|]]].
  - unfold Script.unassignUserFromGroup, requestUrl, interp, stringOf. cbv zeta.
    cbn [Js.convertible Js.ToString]. unfold Eff.emit, Eff.lift, Eff.bind.
    now destruct (fetch w _).
  - set (eg := Uri.encodeURIComponent groupId) in *.
    set (eu := Uri.encodeURIComponent userId) in *.
    change ("/api/v1/groups/" +:+ eg +:+ "/users/" +:+ eu)
      with ("" +:+ String "/" ("api" +:+ String "/" ("v1" +:+ String "/"
              ("groups" +:+ String "/" (eg +:+ String "/"
                 ("users" +:+ String "/" eu)))))).
    rewrite (split_first "/" "" _ eq_refl).
    rewrite (split_first "/" "api" _ eq_refl).
    rewrite (split_first "/" "v1" _ eq_refl).
    rewrite (split_first "/" "groups" _ eq_refl).
    rewrite (split_first "/" eg _ Hg).
    rewrite (split_first "/" "users" _ eq_refl).
    now rewrite (split_whole "/" _ Hu).
Qed.

(** The identifiers of the test suite, and two with reserved characters. *)
Example requestUrl_examples :
  requestUrl (JStr "user123") (JStr "group456") "https://example.okta.com" =
    "https://example.okta.com/api/v1/groups/group456/users/user123" /\
  requestUrl (JStr "a/b c") (JStr "g/../x") "https://example.okta.com" =
    "https://example.okta.com/api/v1/groups/g%2F..%2Fx/users/a%2Fb%20c".
Proof. split; reflexivity. Qed.

(* ================================================================== *)
(** ** The halt handler *)




Example halt_examples :
  Eff.outcome (Script.halt (Fixture.world (Normal Fixture.noContent))
                 Fixture.haltParams Fixture.mockContext) =
    Normal (HaltResult.mk (JStr "user123") (JStr "group456") (JStr "timeout")
              "2024-01-15T10:30:00.000Z" true) /\
  Eff.outcome (Script.halt (Fixture.world (Normal Fixture.noContent))
                 Fixture.haltParamsMissing Fixture.mockContext) =
    Normal (HaltResult.mk (JStr "unknown") (JStr "unknown") (JStr "system_shutdown")
              "2024-01-15T10:30:00.000Z" true).
Proof. vm_compute. split; reflexivity. Qed.

(* ================================================================== *)
(** ** The error handler *)


Lemma param_none (params : gmap string JsVal) (k : string) :
  params !! k = None -> param params k = JUndefined.
Proof. unfold param. now intros ->. Qed.




(** Without an error in the input the handler fails on reading its
    message. *)
Example error_without_error :
  Eff.outcome (Script.error ∅ Fixture.mockContext) =
    Throw (Js.newTypeError "Cannot read properties of undefined (reading 'message')").
Proof. reflexivity. Qed.

(* ================================================================== *)
(** ** Further properties of the two versions *)

(** A run of [invoke] sends at most one request to the target API. *)
Lemma script_invoke_one_request (w : World) (params : gmap string JsVal)
    (context : Context) :
  (length (fetches (Eff.trace (Script.invoke w params context))) <= 1)%nat.
Proof.
  pose proof (script_invoke_run w params context) as Hrun. cbv zeta in Hrun.
  destruct (stringOf (param _ "userId")); [|destruct Hrun as [-> _]; cbn; lia].
  destruct (stringOf (param _ "groupId")); [|destruct Hrun as [-> _]; cbn; lia].
  destruct (Utils.getBaseUrl _ context) as [baseUrl|e];
    [destruct (Eff.outcome (Utils.getAuthorizationHeader w context)) as [h|e]|];
    destruct Hrun as [-> _]; cbn; lia.
Qed.

Lemma dist_invoke_validates_witness :
  fetches (Eff.trace (Dist.invoke (Fixture.world (Normal Fixture.noContent))
                        Fixture.paramsNoUser Fixture.mockContext)) = [] /\
  exists field,
    (field = "userId" \/ field = "groupId") /\
    Dist.invalid (param Fixture.paramsNoUser field) = true /\
    Eff.outcome (Dist.invoke (Fixture.world (Normal Fixture.noContent))
                   Fixture.paramsNoUser Fixture.mockContext) =
      Throw (Js.newError ("Invalid or missing " +:+ field +:+ " parameter")).
Proof.
  destruct (dist_invoke_validates (Fixture.world (Normal Fixture.noContent))
              Fixture.paramsNoUser Fixture.mockContext) as [Ht [Hfield _]];
    [left; reflexivity|].
  split; [exact Ht|]. apply Hfield; reflexivity.
Defined.

Lemma dist_invoke_success_witness :
  exists u g baseUrl,
    param Fixture.params "userId" = JStr u /\ u <> "" /\
    param Fixture.params "groupId" = JStr g /\ g <> "" /\
    Utils.getBaseUrl Fixture.params Fixture.mockContext = Normal baseUrl /\
    Eff.outcome (Dist.invoke (Fixture.world (Normal Fixture.noContent))
                   Fixture.params Fixture.mockContext) =
      Normal (InvokeResult.mk (JStr u) (JStr g) true baseUrl
                "2024-01-15T10:30:00.000Z").
Proof.
  apply (dist_invoke_success (Fixture.world (Normal Fixture.noContent))
           Fixture.params Fixture.mockContext
           (request (JStr "user123") (JStr "group456")
              "https://example.okta.com" "SSWS test-okta-token-123456")
           Fixture.noContent).
  - vm_compute. right. left. reflexivity.
  - reflexivity.
  - reflexivity.
Defined.

Lemma script_invoke_authorization_witness :
  exists h,
    Eff.outcome (Utils.getAuthorizationHeader
                   (Fixture.world (Normal Fixture.noContent)) Fixture.mockContext) =
      Normal h /\
    [("Authorization", "SSWS test-okta-token-123456");
     ("Accept", "application/json");
     ("Content-Type", "application/json")] = requestHeaders (Script.sswsHeader h).
Proof.
  apply (script_invoke_authorization (Fixture.world (Normal Fixture.noContent))
           Fixture.params Fixture.mockContext
           (request (JStr "user123") (JStr "group456")
              "https://example.okta.com" "SSWS test-okta-token-123456")).
  vm_compute. right. left. reflexivity.
Defined.

Lemma dist_invoke_no_token_witness :
  fetches (Eff.trace (Dist.invoke (Fixture.world (Normal Fixture.noContent))
                        Fixture.params Fixture.contextWithoutToken)) = [] /\
  Eff.outcome (Dist.invoke (Fixture.world (Normal Fixture.noContent))
                 Fixture.params Fixture.contextWithoutToken) =
    Throw (Js.newError "Missing required secret: BEARER_AUTH_TOKEN").
Proof.
  destruct (dist_invoke_no_token (Fixture.world (Normal Fixture.noContent))
              Fixture.params Fixture.contextWithoutToken) as [Ht Ho].
  - reflexivity.
  - split; [exact Ht|].
    apply (Ho "https://example.okta.com"); reflexivity.
Defined.

(* ================================================================== *)
(** ** Encoding loses nothing *)

Section Decoding.

Lemma percent_not_unreserved (c : ascii) :
  Uri.unreserved c = true -> Ascii.eqb c "%" = false.
Proof. destruct c as [[] [] [] [] [] [] [] []]; vm_compute; congruence. Qed.

Lemma hexValue_hexDigit (n : N) :
  (n < 16)%N -> hexValue (Uri.hexDigit n) = Some n.
Proof.
  intros H.
  destruct n as [|p]; [reflexivity|].
  do 4 (try destruct p as [p|p|]); try reflexivity; exfalso; lia.
Qed.

Lemma percentDecode_escape (c : ascii) (r : string) :
  percentDecode (Uri.escape c +:+ r) =
    match percentDecode r with
    | Some d => Some (String c d)
    | None => None
    end.
Proof.
  unfold Uri.escape. cbv zeta. rewrite !append_cons.
  change ("" +:+ r) with r. cbn [percentDecode].
  change (Ascii.eqb "%" "%") with true. cbv iota.
  pose proof (N_ascii_bounded c) as Hb.
  rewrite !hexValue_hexDigit
    by (try apply N.mod_lt; try apply N.Div0.div_lt_upper_bound; lia).
  rewrite <- (N.div_mod' (N_of_ascii c) 16), ascii_N_embedding.
  reflexivity.
Qed.

Lemma percentDecode_unreserved (c : ascii) (r : string) :
  Uri.unreserved c = true ->
  percentDecode (String c r) =
    match percentDecode r with
    | Some d => Some (String c d)
    | None => None
    end.
Proof. intros H. cbn [percentDecode]. now rewrite (percent_not_unreserved c H). Qed.

(** Decoding an encoded text gives the text back. *)
Lemma percentDecode_encode (s : string) :
  percentDecode (Uri.encodeURIComponent s) = Some s.
Proof.
  induction s as [|c s IH]; [reflexivity|].
  cbn [Uri.encodeURIComponent]. destruct (Uri.unreserved c) eqn:Hc.
  - rewrite append_cons. change ("" +:+ Uri.encodeURIComponent s)
      with (Uri.encodeURIComponent s).
    now rewrite (percentDecode_unreserved c _ Hc), IH.
  - now rewrite percentDecode_escape, IH.
Qed.

Lemma encodeURIComponent_inj (a b : string) :
  Uri.encodeURIComponent a = Uri.encodeURIComponent b -> a = b.
Proof.
  intros H. apply (f_equal percentDecode) in H.
  rewrite !percentDecode_encode in H. now injection H.
Qed.

Lemma encodeURIComponent_length (s : string) :
  (String.length s <= String.length (Uri.encodeURIComponent s))%nat.
Proof.
  induction s as [|c s IH]; [reflexivity|].
  cbn [Uri.encodeURIComponent]. rewrite length_append.
  destruct (Uri.unreserved c); cbn [String.length Uri.escape]; lia.
Qed.

End Decoding.

(** The segments of the path of a request. *)
Lemma path_segments (userId groupId : string) :
  JsString.split "/"
    ("/api/v1/groups/" +:+ Uri.encodeURIComponent groupId
     +:+ "/users/" +:+ Uri.encodeURIComponent userId) =
  [""; "api"; "v1"; "groups"; Uri.encodeURIComponent groupId; "users";
   Uri.encodeURIComponent userId].
Proof.
  set (eg := Uri.encodeURIComponent groupId).
  set (eu := Uri.encodeURIComponent userId).
  assert (Hg : JsString.includes eg "/" = false)
    by now apply encodeURIComponent_excludes.
  assert (Hu : JsString.includes eu "/" = false)
    by now apply encodeURIComponent_excludes.
  change ("/api/v1/groups/" +:+ eg +:+ "/users/" +:+ eu)
    with ("" +:+ String "/" ("api" +:+ String "/" ("v1" +:+ String "/"
            ("groups" +:+ String "/" (eg +:+ String "/"
               ("users" +:+ String "/" eu)))))).
  rewrite (split_first "/" "" _ eq_refl), (split_first "/" "api" _ eq_refl),
    (split_first "/" "v1" _ eq_refl), (split_first "/" "groups" _ eq_refl),
    (split_first "/" eg _ Hg), (split_first "/" "users" _ eq_refl).
  now rewrite (split_whole "/" _ Hu).
Qed.

(** The request URL determines the identifiers: for one base URL, two
    different pairs of [userId] and [groupId] never give the same URL. *)
Theorem requestUrl_distinguishes (baseUrl userId groupId userId' groupId' : string) :
  (userId, groupId) <> (userId', groupId') ->
  requestUrl (JStr userId) (JStr groupId) baseUrl <>
    requestUrl (JStr userId') (JStr groupId') baseUrl.
Proof.
  intros Hne Heq. apply Hne. unfold requestUrl in Heq. cbn [Js.ToString] in Heq.
  apply String.app_inj in Heq.
  apply (f_equal (JsString.split "/")) in Heq.
  rewrite !path_segments in Heq. injection Heq as Hg Hu.
  now rewrite (encodeURIComponent_inj _ _ Hg), (encodeURIComponent_inj _ _ Hu).
Qed.

Lemma requestUrl_distinguishes_witness :
  requestUrl (JStr "a/b") (JStr "c") "https://example.okta.com" <>
    requestUrl (JStr "a") (JStr "b/c") "https://example.okta.com".
Proof.
  apply (requestUrl_distinguishes "https://example.okta.com" "a/b" "c" "a" "b/c").
  discriminate.
Defined.

(** An identifier is sent as it is exactly when it is made of
    unreserved marks only; any other character makes its encoding
    longer. *)
Lemma encodeURIComponent_fixed (s : string) :
  Uri.encodeURIComponent s = s <-> Uri.all_chars Uri.unreserved s = true.
Proof.
  split; [|apply encodeURIComponent_unreserved].
  induction s as [|c s IH]; [reflexivity|].
  cbn [Uri.encodeURIComponent Uri.all_chars]. destruct (Uri.unreserved c).
  - rewrite append_cons. change ("" +:+ Uri.encodeURIComponent s)
      with (Uri.encodeURIComponent s).
    intros H. injection H as H. now rewrite (IH H).
  - intros H. apply (f_equal String.length) in H.
    rewrite length_append in H. cbn [String.length Uri.escape] in H.
    pose proof (encodeURIComponent_length s). lia.
Qed.

(* ================================================================== *)
(** ** The base URL: precedence and edges *)

(** The [address] parameter, when truthy, decides alone: the
    environment is not consulted.  When it is falsy (absent, empty,
    [null], [0], [false]) the resolution is that of the variable
    [ADDRESS] alone. *)
Theorem getBaseUrl_precedence (params : gmap string JsVal) (context context' : Context) :
  (Js.truthy (param params "address") = true ->
   Utils.getBaseUrl params context = Utils.getBaseUrl params context') /\
  (Js.truthy (param params "address") = false ->
   Utils.getBaseUrl params context = Utils.getBaseUrl ∅ context).
Proof.
  unfold Utils.getBaseUrl, Js.orElse. split; intros H; rewrite H.
  - reflexivity.
  - unfold param at 3. now rewrite lookup_empty.
Qed.

Lemma getBaseUrl_precedence_witness :
  Utils.getBaseUrl Fixture.params Scenario.contextWithAddress =
    Utils.getBaseUrl Fixture.params Fixture.mockContext /\
  Utils.getBaseUrl Fixture.paramsNoAddress Scenario.contextWithAddress =
    Utils.getBaseUrl ∅ Scenario.contextWithAddress.
Proof.
  split.
  - apply (proj1 (getBaseUrl_precedence Fixture.params Scenario.contextWithAddress
                    Fixture.mockContext)). reflexivity.
  - apply (proj2 (getBaseUrl_precedence Fixture.paramsNoAddress
                    Scenario.contextWithAddress Fixture.mockContext)). reflexivity.
Defined.

(** A truthy address that is not a string (a number, [true], an array,
    an object) is not rejected as missing: the resolver fails with a
    [TypeError] on [endsWith]. *)
Theorem getBaseUrl_not_a_string (params : gmap string JsVal) (context : Context)
    (v : JsVal) :
  param params "address" = v ->
  Js.truthy v = true ->
  Js.typeof v <> "string" ->
  exists message,
    Utils.getBaseUrl params context = Throw (Js.newTypeError message).
Proof.
  intros Hv Ht Hs. unfold Utils.getBaseUrl, Js.orElse. rewrite Hv. cbv zeta.
  rewrite !Ht. cbn [negb].
  destruct v; try (eexists; reflexivity). exfalso. now apply Hs.
Qed.

Lemma getBaseUrl_not_a_string_witness :
  exists message,
    Utils.getBaseUrl {[ "address" := JNum 8080 ]} Scenario.contextWithAddress =
      Throw (Js.newTypeError message).
Proof.
  apply (getBaseUrl_not_a_string {[ "address" := JNum 8080 ]}
           Scenario.contextWithAddress (JNum 8080)).
  - reflexivity.
  - reflexivity.
  - discriminate.
Defined.

(** The base URL can be empty: a non-empty address resolves to the
    empty string exactly when it is the single slash. *)
Theorem getBaseUrl_empty (params : gmap string JsVal) (context : Context) (a : string) :
  Js.orElse (param params "address") (setting (environment context) "ADDRESS")
    = JStr a ->
  a <> "" ->
  (Utils.getBaseUrl params context = Normal "" <-> a = "/").
Proof.
  intros Ha Hne. unfold Utils.getBaseUrl. rewrite Ha.
  assert (Ht : Js.truthy (JStr a) = true)
    by (cbn; now destruct (String.eqb_spec a "")).
  rewrite Ht. cbn [negb]. split.
  - intros H. injection H as H.
    destruct (JsString.endsWith a "/") eqn:He; [|congruence].
    destruct (endsWith_split _ _ He) as [q ->].
    rewrite slice_drop_last in H. now subst q.
  - intros ->. reflexivity.
Qed.

Lemma getBaseUrl_empty_witness :
  Utils.getBaseUrl {[ "address" := JStr "/" ]} Fixture.mockContext = Normal "".
Proof.
  apply (getBaseUrl_empty {[ "address" := JStr "/" ]} Fixture.mockContext "/");
    [reflexivity | discriminate | reflexivity].
Defined.

(* ================================================================== *)
(** ** The error handler without an error *)

(** When the input holds no error ([undefined] or [null]), the handler
    fails on reading [error.message]: it throws a [TypeError] and logs
    nothing. *)
Theorem error_without_error_fails (params : gmap string JsVal) (context : Context) :
  param params "error" = JUndefined \/ param params "error" = JNull ->
  exists message,
    Script.error params context = ([], Throw (Js.newTypeError message)).
Proof.
  intros H. unfold Script.error. cbv zeta. rewrite bind_interp. unfold stringOf.
  destruct (Js.convertible (param params "userId")); [|eexists; reflexivity].
  rewrite bind_interp. unfold stringOf.
  destruct (Js.convertible (param params "groupId")); [|eexists; reflexivity].
  destruct H as [-> | ->]; eexists; reflexivity.
Qed.

Lemma error_without_error_fails_witness :
  exists message,
    Script.error Fixture.params Fixture.mockContext =
      ([], Throw (Js.newTypeError message)).
Proof.
  apply (error_without_error_fails Fixture.params Fixture.mockContext).
  left. reflexivity.
Defined.

(* ================================================================== *)
(** ** A transport that fails *)

(** When [fetch] rejects, [invoke] does not catch: in both versions the
    rejection is the outcome, and the run has sent that one request and
    no other (no second attempt). *)
Theorem invoke_fetch_rejects (w : World) (params : gmap string JsVal)
    (context : Context) (req : Request) (e : JsVal) :
  fetch w req = Throw e ->
  (In (EvFetch req) (Eff.trace (Script.invoke w params context)) ->
   Eff.outcome (Script.invoke w params context) = Throw e /\
   fetches (Eff.trace (Script.invoke w params context)) = [req]) /\
  (In (EvFetch req) (Eff.trace (Dist.invoke w params context)) ->
   Eff.outcome (Dist.invoke w params context) = Throw e /\
   fetches (Eff.trace (Dist.invoke w params context)) = [req]).
Proof.
  intros Hrej. split; intros Hin; apply In_fetches in Hin.
  - pose proof (script_invoke_run w params context) as Hrun. cbv zeta in Hrun.
    logged_ids Hrun Hin.
    destruct (Utils.getBaseUrl _ context) as [baseUrl|e'];
      [|sent_nothing Hrun Hin].
    destruct (Eff.outcome (Utils.getAuthorizationHeader w context)) as [h|e'];
      [|sent_nothing Hrun Hin].
    destruct Hrun as [Ht Ho]. rewrite Ht in Hin. destruct Hin as [<-|[]].
    rewrite Hrej in Ho. now split.
  - pose proof (dist_invoke_run w params context) as Hrun. cbv zeta in Hrun.
    logged_ids Hrun Hin.
    destruct (Dist.invalid (param params "userId")); [sent_nothing Hrun Hin|].
    destruct (Dist.invalid (param params "groupId")); [sent_nothing Hrun Hin|].
    destruct (Utils.getBaseUrl params context) as [baseUrl|e'];
      [|sent_nothing Hrun Hin].
    destruct (Utils.material (secrets context) "BEARER_AUTH_TOKEN");
      [|sent_nothing Hrun Hin].
    destruct Hrun as [Ht Ho]. rewrite Ht in Hin. destruct Hin as [<-|[]].
    rewrite Hrej in Ho. now split.
Qed.

Lemma invoke_fetch_rejects_witness :
  Eff.outcome (Script.invoke Scenario.networkDown Fixture.params Fixture.mockContext) =
    Throw (Js.newTypeError "fetch failed") /\
  Eff.outcome (Dist.invoke Scenario.networkDown Fixture.params Fixture.mockContext) =
    Throw (Js.newTypeError "fetch failed").
Proof.
  destruct (invoke_fetch_rejects Scenario.networkDown Fixture.params
              Fixture.mockContext
              (request (JStr "user123") (JStr "group456")
                 "https://example.okta.com" "SSWS test-okta-token-123456")
              (Js.newTypeError "fetch failed") eq_refl) as [Hs Hd].
  split.
  - apply Hs. vm_compute. right. left. reflexivity.
  - apply Hd. vm_compute. right. left. reflexivity.
Defined.

(* ================================================================== *)
(** ** Template errors are not fatal *)

(** The errors the template pre-pass reports change nothing but the
    log: the run is that of the same world without the errors, after
    one [console.warn] line holding them when there are any. *)
Theorem script_invoke_template_errors (w : World) (params : gmap string JsVal)
    (context : Context) :
  let errors :=
    snd (resolveJSONPathTemplates w params
           (Js.orElse (data context) (JObj PlainObject []))) in
  let quiet := Script.invoke (withoutTemplateErrors w) params context in
  Script.invoke w params context =
    (match errors with
     | [] => []
     | _ :: _ =>
         [EvConsole ConsoleWarn [JStr "Template resolution errors:"; JArr errors]]
     end ++ Eff.trace quiet,
     Eff.outcome quiet).
Proof.
  cbv zeta. unfold Script.invoke, withoutTemplateErrors.
  cbn [resolveJSONPathTemplates now fetch produceHeader].
  destruct (resolveJSONPathTemplates w params _) as [rp errors]. cbn [fst snd].
  match goal with
  | |- Eff.bind _ ?k = (_ ++ Eff.trace (Eff.bind _ ?k'), _) =>
      change k' with k; generalize k; intros rest
  end.
  unfold Eff.ret. rewrite (bind_normal [] tt). cbn [app].
  destruct errors as [|err errors].
  - rewrite (bind_normal [] tt). now destruct (rest tt).
  - now rewrite bind_console.
Qed.

Example script_invoke_template_errors_example :
  consoles (Eff.trace (Script.invoke
                         (Scenario.worldWithTemplateError (Normal Fixture.noContent))
                         Fixture.params Fixture.mockContext)) =
    [(ConsoleWarn, [JStr "Template resolution errors:";
                    JArr [JStr "failed to resolve template"]]);
     (ConsoleLog,
      [JStr "Starting Okta user group removal: user user123 from group group456"]);
     (ConsoleLog, [JStr "Successfully removed user user123 from group group456"])].
Proof. vm_compute. reflexivity. Qed.

(* ================================================================== *)
(** ** What the log holds *)

Lemma consoles_app (s t : list Event) : consoles (s ++ t) = consoles s ++ consoles t.
Proof.
  induction s as [|ev s IH]; [reflexivity|].
  destruct ev; simpl; now rewrite IH.
Qed.

(** The resolver of the header writes no console line. *)
Lemma getAuthorizationHeader_consoles (w : World) (context : Context) :
  consoles (Eff.trace (Utils.getAuthorizationHeader w context)) = [].
Proof.
  unfold Utils.getAuthorizationHeader.
  destruct (Utils.selectScheme context) as [[]|]; simpl;
    try reflexivity; now destruct (produceHeader w _).
Qed.

(** The console lines of a run of [Script.invoke]: the warning of the
    pre-pass, the starting line when both identifiers convert, and, once
    a response came, the lines of the code after the call. *)
Lemma script_invoke_consoles (w : World) (params : gmap string JsVal)
    (context : Context) :
  let resolved :=
    resolveJSONPathTemplates w params
      (Js.orElse (data context) (JObj PlainObject [])) in
  let userId := param (fst resolved) "userId" in
  let groupId := param (fst resolved) "groupId" in
  consoles (Eff.trace (Script.invoke w params context)) =
    match snd resolved with
    | [] => []
    | _ :: _ =>
        [(ConsoleWarn, [JStr "Template resolution errors:"; JArr (snd resolved)])]
    end ++
    match stringOf userId, stringOf groupId with
    | Throw _, _ | Normal _, Throw _ => []
    | Normal u, Normal g =>
    (ConsoleLog,
     [JStr ("Starting Okta user group removal: user " +:+ u
            +:+ " from group " +:+ g)]) ::
    match Utils.getBaseUrl (fst resolved) context with
    | Throw _ => []
    | Normal baseUrl =>
        match Eff.outcome (Utils.getAuthorizationHeader w context) with
        | Throw _ => []
        | Normal h =>
            match fetch w (request userId groupId baseUrl (Script.sswsHeader h)) with
            | Throw _ => []
            | Normal response =>
                consoles (Eff.trace (handleResponse w userId groupId baseUrl response))
            end
        end
    end
    end.
Proof.
  cbv zeta. unfold Script.invoke.
  destruct (resolveJSONPathTemplates w params _) as [rp errors]. cbn [fst snd].
  set (userId := param rp "userId"). set (groupId := param rp "groupId").
  pose proof (getAuthorizationHeader_consoles w context) as Hauth.
  assert (Hpre : forall k : Eff InvokeResult.t,
             consoles (Eff.trace
                         (match errors with
                          | [] => Eff.ret tt
                          | _ :: _ =>
                              console ConsoleWarn
                                [JStr "Template resolution errors:"; JArr errors]
                          end ;; k)) =
               match errors with
               | [] => []
               | _ :: _ =>
                   [(ConsoleWarn, [JStr "Template resolution errors:"; JArr errors])]
               end ++ consoles (Eff.trace k)).
  { intros k. destruct errors; [unfold Eff.ret; rewrite bind_normal|
                                rewrite bind_console]; reflexivity. }
  match goal with
  | |- context [Eff.bind (match errors with _ => _ end) (fun _ => ?k)] =>
      rewrite (Hpre k)
  end.
  clear Hpre. f_equal. rewrite bind_interp.
  destruct (stringOf userId) as [u|e] eqn:Hu; [|reflexivity].
  rewrite bind_interp.
  destruct (stringOf groupId) as [g|e] eqn:Hg; [|reflexivity].
  rewrite bind_console. cbn [Eff.trace fst consoles]. f_equal.
  destruct (Utils.getBaseUrl rp context) as [baseUrl|e]; [|reflexivity].
  rewrite bind_lift_normal.
  destruct (Utils.getAuthorizationHeader w context) as [ta [h|e]];
    cbn [Eff.trace Eff.outcome fst snd] in *; [|exact Hauth].
  rewrite (bind_normal ta h). cbn [Eff.trace fst].
  rewrite consoles_app, Hauth. cbn [app].
  unfold Script.unassignUserFromGroup. rewrite bind_interp, Hu, bind_interp, Hg.
  apply stringOf_normal in Hu as [_ ->]. apply stringOf_normal in Hg as [_ ->].
  cbv beta zeta.
  change (mkRequest (requestUrl (JStr (Js.ToString userId))
                       (JStr (Js.ToString groupId)) baseUrl) "DELETE"
            (requestHeaders (Script.sswsHeader h)))
    with (request userId groupId baseUrl (Script.sswsHeader h)).
  generalize (request userId groupId baseUrl (Script.sswsHeader h)).
  intros req.
  destruct (fetch w req) as [response|e]; [|reflexivity].
  destruct (handleResponse w userId groupId baseUrl response) as [th ch] eqn:Hh.
  cbn. now rewrite Hh.
Qed.

(** The log does not depend on the credentials: two runs on the same
    input whose contexts differ in their secrets only, both with a
    resolved header, write the same console lines whenever the API
    answers their two requests alike. *)
Theorem script_invoke_log_hides_credentials (w : World) (params : gmap string JsVal)
    (c1 c2 : Context) (h1 h2 : string) :
  environment c1 = environment c2 ->
  data c1 = data c2 ->
  Eff.outcome (Utils.getAuthorizationHeader w c1) = Normal h1 ->
  Eff.outcome (Utils.getAuthorizationHeader w c2) = Normal h2 ->
  (forall baseUrl,
      fetch w (request (param (Script.resolvedParams w params c1) "userId")
                 (param (Script.resolvedParams w params c1) "groupId")
                 baseUrl (Script.sswsHeader h1)) =
      fetch w (request (param (Script.resolvedParams w params c1) "userId")
                 (param (Script.resolvedParams w params c1) "groupId")
                 baseUrl (Script.sswsHeader h2))) ->
  consoles (Eff.trace (Script.invoke w params c1)) =
    consoles (Eff.trace (Script.invoke w params c2)).
Proof.
  intros Henv Hdata Hh1 Hh2 Hfetch.
  pose proof (script_invoke_consoles w params c1) as H1.
  pose proof (script_invoke_consoles w params c2) as H2.
  cbv zeta in H1, H2. unfold Script.resolvedParams in Hfetch.
  rewrite H1, H2, Hh1, Hh2. rewrite <- Hdata.
  assert (Hbase : forall rp, Utils.getBaseUrl rp c1 = Utils.getBaseUrl rp c2)
    by (intros rp; unfold Utils.getBaseUrl; now rewrite Henv).
  rewrite <- Hbase.
  destruct (stringOf (param _ "userId")); [|reflexivity].
  destruct (stringOf (param _ "groupId")); [|reflexivity].
  destruct (Utils.getBaseUrl _ c1) as [baseUrl|e]; [|reflexivity].
  now rewrite (Hfetch baseUrl).
Qed.

Lemma script_invoke_log_hides_credentials_witness :
  consoles (Eff.trace (Script.invoke (Fixture.world (Normal Fixture.noContent))
                         Fixture.params Fixture.mockContext)) =
    consoles (Eff.trace (Script.invoke (Fixture.world (Normal Fixture.noContent))
                           Fixture.params Scenario.otherToken)).
Proof.
  apply (script_invoke_log_hides_credentials
           (Fixture.world (Normal Fixture.noContent)) Fixture.params
           Fixture.mockContext Scenario.otherToken
           "Bearer test-okta-token-123456" "Bearer SSWS another-token").
  - reflexivity.
  - reflexivity.
  - reflexivity.
  - reflexivity.
  - intros baseUrl. reflexivity.
Defined.

(* ================================================================== *)
(** ** The authorization header that is sent *)

Lemma sswsHeader_never_bearer (h : string) :
  JsString.startsWith (Script.sswsHeader h) "Bearer " = false.
Proof.
  destruct (JsString.startsWith h "Bearer ") eqn:Hb.
  - apply prefix_split in Hb. rewrite Hb.
    set (token := JsString.substring _ h). rewrite sswsHeader_bearer.
    destruct (JsString.startsWith token "SSWS ") eqn:Hs.
    + now apply ssws_not_bearer.
    + apply ssws_not_bearer, (startsWith_append "SSWS ").
  - now rewrite (sswsHeader_other h Hb).
Qed.

Lemma dist_sswsHeader_ssws (t : string) :
  JsString.startsWith (Dist.sswsHeader t) "SSWS " = true.
Proof.
  unfold Dist.sswsHeader. destruct (JsString.startsWith t "SSWS ") eqn:Hs;
    [exact Hs|apply (startsWith_append "SSWS ")].
Qed.

(** No request of [Script.invoke] carries an [Authorization] of the
    generic form [Bearer ...]: whatever header the resolver returns,
    what is sent does not start with [Bearer ]. *)
Theorem script_invoke_never_bearer (w : World) (params : gmap string JsVal)
    (context : Context) (req : Request) :
  In (EvFetch req) (Eff.trace (Script.invoke w params context)) ->
  exists h,
    headers req = requestHeaders h /\ JsString.startsWith h "Bearer " = false.
Proof.
  intros Hin. apply In_fetches in Hin.
  pose proof (script_invoke_run w params context) as Hrun. cbv zeta in Hrun.
  logged_ids Hrun Hin.
  destruct (Utils.getBaseUrl _ context) as [baseUrl|e]; [|sent_nothing Hrun Hin].
  destruct (Eff.outcome (Utils.getAuthorizationHeader w context)) as [h|e];
    [|sent_nothing Hrun Hin].
  destruct Hrun as [Ht _]. rewrite Ht in Hin. destruct Hin as [<-|[]].
  exists (Script.sswsHeader h). split; [reflexivity|apply sswsHeader_never_bearer].
Qed.

Lemma script_invoke_never_bearer_witness :
  exists h,
    [("Authorization", "SSWS test-okta-token-123456");
     ("Accept", "application/json");
     ("Content-Type", "application/json")] = requestHeaders h /\
    JsString.startsWith h "Bearer " = false.
Proof.
  apply (script_invoke_never_bearer (Fixture.world (Normal Fixture.noContent))
           Fixture.params Fixture.mockContext
           (request (JStr "user123") (JStr "group456")
              "https://example.okta.com" "SSWS test-okta-token-123456")).
  vm_compute. right. left. reflexivity.
Defined.

(** Every request of the bundle's [invoke] carries an [Authorization]
    that starts with [SSWS ] and ends with the configured token. *)
Theorem dist_invoke_always_ssws (w : World) (params : gmap string JsVal)
    (context : Context) (req : Request) :
  In (EvFetch req) (Eff.trace (Dist.invoke w params context)) ->
  exists authToken h,
    Utils.material (secrets context) "BEARER_AUTH_TOKEN" = Some authToken /\
    headers req = requestHeaders h /\
    JsString.startsWith h "SSWS " = true /\
    JsString.endsWith h authToken = true.
Proof.
  intros Hin. apply In_fetches in Hin.
  pose proof (dist_invoke_run w params context) as Hrun. cbv zeta in Hrun.
  logged_ids Hrun Hin.
  destruct (Dist.invalid (param params "userId")); [sent_nothing Hrun Hin|].
  destruct (Dist.invalid (param params "groupId")); [sent_nothing Hrun Hin|].
  destruct (Utils.getBaseUrl params context) as [baseUrl|e];
    [|sent_nothing Hrun Hin].
  destruct (Utils.material (secrets context) "BEARER_AUTH_TOKEN") as [authToken|];
    [|sent_nothing Hrun Hin].
  destruct Hrun as [Ht _]. rewrite Ht in Hin. destruct Hin as [<-|[]].
  exists authToken, (Dist.sswsHeader authToken).
  split; [reflexivity|]. split; [reflexivity|].
  split; [apply dist_sswsHeader_ssws|].
  unfold Dist.sswsHeader. destruct (JsString.startsWith authToken "SSWS ").
  - apply (endsWith_append "").
  - apply endsWith_append.
Qed.

Lemma dist_invoke_always_ssws_witness :
  exists authToken h,
    Utils.material (secrets Fixture.mockContext) "BEARER_AUTH_TOKEN" = Some authToken /\
    [("Authorization", "SSWS test-okta-token-123456");
     ("Accept", "application/json");
     ("Content-Type", "application/json")] = requestHeaders h /\
    JsString.startsWith h "SSWS " = true /\
    JsString.endsWith h authToken = true.
Proof.
  apply (dist_invoke_always_ssws (Fixture.world (Normal Fixture.noContent))
           Fixture.params Fixture.mockContext
           (request (JStr "user123") (JStr "group456")
              "https://example.okta.com" "SSWS test-okta-token-123456")).
  vm_compute. right. left. reflexivity.
Defined.

(* ================================================================== *)
(** ** The two versions on a bearer token *)

(** On identifiers that pass the bundle's validation, with no template
    to resolve and a resolver that returns [Bearer <token>] for the
    configured bearer token, the module and the bundle run alike: the
    same console lines, the same request, the same outcome. *)
Theorem script_dist_agree (w : World) (params : gmap string JsVal)
    (context : Context) (token : string) :
  resolveJSONPathTemplates w params
    (Js.orElse (data context) (JObj PlainObject [])) = (params, []) ->
  Utils.material (secrets context) "BEARER_AUTH_TOKEN" = Some token ->
  Utils.getAuthorizationHeader w context = ([], Normal ("Bearer " +:+ token)) ->
  Dist.invalid (param params "userId") = false ->
  Dist.invalid (param params "groupId") = false ->
  Script.invoke w params context = Dist.invoke w params context.
Proof.
  intros Hres Htok Hauth Hu Hg.
  unfold Script.invoke, Dist.invoke. rewrite Hres, Hauth, Htok, Hu, Hg.
  cbv zeta. unfold Eff.ret at 1. rewrite (bind_normal [] tt). cbn [app].
  rewrite !bind_interp, (stringOf_convertible _ (valid_convertible _ Hu)).
  rewrite !bind_interp, (stringOf_convertible _ (valid_convertible _ Hg)).
  rewrite !bind_console. cbn [Eff.trace Eff.outcome fst snd].
  destruct (Utils.getBaseUrl params context) as [baseUrl|e]; [|reflexivity].
  rewrite !bind_lift_normal, (bind_normal [] _). cbn [app].
  rewrite sswsHeader_bearer.
  unfold Script.unassignUserFromGroup, Dist.unassignUserFromGroup, Dist.sswsHeader.
  now destruct (Eff.bind _ _).
Qed.

Lemma script_dist_agree_witness :
  Script.invoke (Fixture.world (Normal Fixture.notFound)) Fixture.params
    Fixture.mockContext =
  Dist.invoke (Fixture.world (Normal Fixture.notFound)) Fixture.params
    Fixture.mockContext.
Proof.
  apply (script_dist_agree (Fixture.world (Normal Fixture.notFound)) Fixture.params
           Fixture.mockContext "test-okta-token-123456");
    reflexivity.
Defined.

(* ================================================================== *)
(** ** Failure responses in the bundle *)

(** The message of the error thrown for a response without [ok], by the
    cases of its body. *)
Lemma handleResponse_failure_cases (w : World) (userId groupId : JsVal)
    (baseUrl : string) (response : Response) :
  ok response = false ->
  exists message,
    Eff.outcome (handleResponse w userId groupId baseUrl response) =
      Throw (JObj (ErrorObject "Error")
               [("message", JStr message);
                ("statusCode", JNum (status response))]) /\
    (forall cls props s,
        json response = Normal (JObj cls props) ->
        Js.ownProp "errorSummary" props = Some (JStr s) ->
        message =
          if String.eqb s ""
          then "Failed to remove user from group: HTTP "
                 +:+ Js.ToString (JNum (status response))
          else "Failed to remove user from group: " +:+ s) /\
    (forall cls props summary,
        json response = Normal (JObj cls props) ->
        Js.ownProp "errorSummary" props = Some summary ->
        Js.truthy summary = false \/ Js.convertible summary = false ->
        message = "Failed to remove user from group: HTTP "
                    +:+ Js.ToString (JNum (status response))) /\
    (forall e,
        json response = Throw e ->
        message = "Failed to remove user from group: HTTP "
                    +:+ Js.ToString (JNum (status response))) /\
    (json response = Normal JNull ->
     message = "Failed to remove user from group: HTTP "
                 +:+ Js.ToString (JNum (status response))) /\
    (forall props,
        json response = Normal (JObj PlainObject props) ->
        Js.ownProp "errorSummary" props = None ->
        message = "Failed to remove user from group: HTTP "
                    +:+ Js.ToString (JNum (status response))).
Proof.
  intros Hfailed.
  destruct (handleResponse_failed w userId groupId baseUrl response Hfailed)
    as [message Hmsg].
  exists message. split; [exact Hmsg|]. repeat split.
  - intros cls props s Hjson Hown.
    destruct (String.eqb_spec s "") as [->|Hs].
    + rewrite (handleResponse_falsy w userId groupId baseUrl response Hfailed
                 (JObj cls props) (JStr "") Hjson (getProp_own _ _ _ _ Hown) eq_refl)
        in Hmsg.
      now inversion Hmsg.
    + rewrite (handleResponse_summary w userId groupId baseUrl response Hfailed
                 (JObj cls props) (JStr s) Hjson (getProp_own _ _ _ _ Hown))
        in Hmsg.
      * now inversion Hmsg.
      * cbn. now destruct (String.eqb_spec s "").
      * reflexivity.
  - intros cls props summary Hjson Hown Hcase.
    destruct (Js.truthy summary) eqn:Ht.
    + destruct Hcase as [Hcase|Hcase]; [discriminate|].
      rewrite (handleResponse_unprintable w userId groupId baseUrl response Hfailed
                 (JObj cls props) summary Hjson (getProp_own _ _ _ _ Hown) Ht Hcase)
        in Hmsg.
      now inversion Hmsg.
    + rewrite (handleResponse_falsy w userId groupId baseUrl response Hfailed
                 (JObj cls props) summary Hjson (getProp_own _ _ _ _ Hown) Ht)
        in Hmsg.
      now inversion Hmsg.
  - intros e Hjson.
    rewrite (handleResponse_not_json w userId groupId baseUrl response Hfailed e Hjson)
      in Hmsg.
    now inversion Hmsg.
  - intros Hjson.
    rewrite (handleResponse_unreadable w userId groupId baseUrl response Hfailed
               JNull _ Hjson eq_refl) in Hmsg.
    now inversion Hmsg.
  - intros props Hjson Hown.
    rewrite (handleResponse_falsy w userId groupId baseUrl response Hfailed
               (JObj PlainObject props) JUndefined Hjson
               (getProp_plain_absent _ _ Hown) eq_refl) in Hmsg.
    now inversion Hmsg.
Qed.

(** Whenever the request of the bundle's [invoke] was answered by a
    response without [ok], it throws an [Error] carrying the status
    code; the message holds the [errorSummary] of a JSON object body
    when that is a non-empty string, and the status code otherwise: an
    empty string, another falsy summary, a summary that does not convert
    to a string, an absent one, a [null] body, a body that is not
    JSON. *)
Theorem dist_invoke_failure (w : World) (params : gmap string JsVal)
    (context : Context) (req : Request) (response : Response) :
  In (EvFetch req) (Eff.trace (Dist.invoke w params context)) ->
  fetch w req = Normal response ->
  ok response = false ->
  exists message,
    Eff.outcome (Dist.invoke w params context) =
      Throw (JObj (ErrorObject "Error")
               [("message", JStr message);
                ("statusCode", JNum (status response))]) /\
    (forall cls props s,
        json response = Normal (JObj cls props) ->
        Js.ownProp "errorSummary" props = Some (JStr s) ->
        message =
          if String.eqb s ""
          then "Failed to remove user from group: HTTP "
                 +:+ Js.ToString (JNum (status response))
          else "Failed to remove user from group: " +:+ s) /\
    (forall cls props summary,
        json response = Normal (JObj cls props) ->
        Js.ownProp "errorSummary" props = Some summary ->
        Js.truthy summary = false \/ Js.convertible summary = false ->
        message = "Failed to remove user from group: HTTP "
                    +:+ Js.ToString (JNum (status response))) /\
    (forall e,
        json response = Throw e ->
        message = "Failed to remove user from group: HTTP "
                    +:+ Js.ToString (JNum (status response))) /\
    (json response = Normal JNull ->
     message = "Failed to remove user from group: HTTP "
                 +:+ Js.ToString (JNum (status response))) /\
    (forall props,
        json response = Normal (JObj PlainObject props) ->
        Js.ownProp "errorSummary" props = None ->
        message = "Failed to remove user from group: HTTP "
                    +:+ Js.ToString (JNum (status response))).
Proof.
  intros Hin Hresp Hfailed.
  destruct (dist_invoke_answered w params context req response Hin Hresp)
    as [_ [_ [baseUrl [_ Hout]]]].
  rewrite Hout. now apply handleResponse_failure_cases.
Qed.

Lemma dist_invoke_failure_witness :
  exists message,
    Eff.outcome (Dist.invoke (Fixture.world (Normal Fixture.notJson))
                   Fixture.params Fixture.mockContext) =
      Throw (JObj (ErrorObject "Error")
               [("message", JStr message); ("statusCode", JNum 500)]) /\
    message = "Failed to remove user from group: HTTP 500".
Proof.
  destruct (dist_invoke_failure (Fixture.world (Normal Fixture.notJson))
              Fixture.params Fixture.mockContext
              (request (JStr "user123") (JStr "group456")
                 "https://example.okta.com" "SSWS test-okta-token-123456")
              Fixture.notJson)
    as [message [Hout [_ [_ [Hnot _]]]]].
  - vm_compute. right. left. reflexivity.
  - reflexivity.
  - reflexivity.
  - exists message. split; [exact Hout|].
    apply (Hnot (Js.newError "Not JSON")). reflexivity.
Defined.

(* ================================================================== *)
(** ** The earlier bundle *)

Lemma legacy_handleResponse_fetches (w : World) (userId groupId oktaDomain : JsVal)
    (response : Response) :
  fetches (Eff.trace (Legacy.handleResponse w userId groupId oktaDomain response)) = [].
Proof.
  unfold Legacy.handleResponse. rewrite !bind_interp. destruct (ok response).
  - destruct (stringOf userId); [|reflexivity].
    rewrite bind_interp. now destruct (stringOf groupId).
  - destruct (json response) as [body|e]; [|reflexivity].
    rewrite bind_lift_normal.
    destruct (getProp body "errorSummary") as [summary|e]; [|reflexivity].
    rewrite bind_lift_normal.
    destruct (Js.truthy summary); [|reflexivity].
    rewrite bind_interp. now destruct (stringOf summary).
Qed.

Lemma legacy_handleResponse_ok (w : World) (userId groupId oktaDomain : JsVal)
    (response : Response) :
  Js.convertible userId = true ->
  Js.convertible groupId = true ->
  ok response = true ->
  Eff.outcome (Legacy.handleResponse w userId groupId oktaDomain response) =
    Normal (LegacyResult.mk userId groupId true oktaDomain (now w)).
Proof.
  intros Hu Hg Hok. unfold Legacy.handleResponse.
  rewrite Hok, bind_interp, (stringOf_convertible _ Hu).
  rewrite bind_interp, (stringOf_convertible _ Hg). reflexivity.
Qed.

(** The run of [Legacy.invoke], stage by stage: the starting line, three
    validations, the token, the [URL] constructor, then one request. *)
Lemma legacy_invoke_run (newURL : string -> string -> Completion string)
    (w : World) (params : gmap string JsVal) (context : Context) :
  let userId := param params "userId" in
  let groupId := param params "groupId" in
  let oktaDomain := param params "oktaDomain" in
  let run := Legacy.invoke newURL w params context in
  match stringOf userId, stringOf groupId with
  | Throw e, _ | Normal _, Throw e =>
      fetches (Eff.trace run) = [] /\ Eff.outcome run = Throw e
  | Normal _, Normal _ =>
  if Dist.invalid userId then
    fetches (Eff.trace run) = [] /\
    Eff.outcome run = Throw (Js.newError "Invalid or missing userId parameter")
  else if Dist.invalid groupId then
    fetches (Eff.trace run) = [] /\
    Eff.outcome run = Throw (Js.newError "Invalid or missing groupId parameter")
  else if Dist.invalid oktaDomain then
    fetches (Eff.trace run) = [] /\
    Eff.outcome run = Throw (Js.newError "Invalid or missing oktaDomain parameter")
  else
    match Utils.material (secrets context) "BEARER_AUTH_TOKEN" with
    | None =>
        fetches (Eff.trace run) = [] /\
        Eff.outcome run =
          Throw (Js.newError "Missing required secret: BEARER_AUTH_TOKEN")
    | Some authToken =>
        match newURL (Legacy.requestPath userId groupId)
                ("https://" +:+ Js.ToString oktaDomain) with
        | Throw e => fetches (Eff.trace run) = [] /\ Eff.outcome run = Throw e
        | Normal url =>
            let req :=
              mkRequest url "DELETE" (requestHeaders (Dist.sswsHeader authToken)) in
            fetches (Eff.trace run) = [req] /\
            Eff.outcome run =
              match fetch w req with
              | Normal response =>
                  Eff.outcome
                    (Legacy.handleResponse w userId groupId oktaDomain response)
              | Throw e => Throw e
              end
        end
    end
  end.
Proof.
  unfold Legacy.invoke. cbv zeta.
  set (userId := param params "userId"). set (groupId := param params "groupId").
  set (oktaDomain := param params "oktaDomain").
  rewrite bind_interp.
  destruct (stringOf userId) as [u|e] eqn:Hu; [|now split].
  rewrite bind_interp.
  destruct (stringOf groupId) as [g|e] eqn:Hg; [|now split].
  rewrite bind_console. cbn [Eff.trace Eff.outcome fst snd fetches].
  destruct (Dist.invalid userId); [split; reflexivity|].
  destruct (Dist.invalid groupId); [split; reflexivity|].
  destruct (Dist.invalid oktaDomain) eqn:Hd; [split; reflexivity|].
  destruct (Utils.material (secrets context) "BEARER_AUTH_TOKEN") as [authToken|];
    [|split; reflexivity].
  unfold Legacy.unassignUserFromGroup.
  rewrite bind_interp, Hu, bind_interp, Hg.
  rewrite bind_interp, (stringOf_convertible _ (valid_convertible _ Hd)).
  apply stringOf_normal in Hu as [_ ->]. apply stringOf_normal in Hg as [_ ->].
  change (Legacy.requestPath (JStr (Js.ToString userId)) (JStr (Js.ToString groupId)))
    with (Legacy.requestPath userId groupId).
  destruct (newURL _ _) as [url|e]; [|split; reflexivity].
  rewrite bind_lift_normal. cbv beta zeta.
  generalize (mkRequest url "DELETE" (requestHeaders (Dist.sswsHeader authToken))).
  intros req.
  pose proof (legacy_handleResponse_fetches w userId groupId oktaDomain) as Hafter.
  destruct (fetch w req) as [response|e]; [|split; reflexivity].
  specialize (Hafter response).
  destruct (Legacy.handleResponse w userId groupId oktaDomain response)
    as [th ch] eqn:Hh.
  cbn [Eff.trace Eff.outcome fst snd] in *.
  cbn. rewrite Hh. cbn. rewrite Hafter. split; reflexivity.
Qed.

(** The earlier bundle validates three parameters in order, [userId],
    [groupId], [oktaDomain], after its starting line: on an input with
    one at fault it sends nothing; when the two identifiers convert to
    strings for that line it throws for the first parameter at fault,
    before it reads the token or builds the URL, the domain being
    required whatever the environment holds; when an identifier does not
    convert, it throws the [TypeError] of the line. *)
Theorem legacy_invoke_validates (newURL : string -> string -> Completion string)
    (w : World) (params : gmap string JsVal) (context : Context) :
  Dist.invalid (param params "userId") = true \/
  Dist.invalid (param params "groupId") = true \/
  Dist.invalid (param params "oktaDomain") = true ->
  fetches (Eff.trace (Legacy.invoke newURL w params context)) = [] /\
  (Js.convertible (param params "userId") = true ->
   Js.convertible (param params "groupId") = true ->
   Eff.outcome (Legacy.invoke newURL w params context) =
     Throw (Js.newError
              ("Invalid or missing "
               +:+ (if Dist.invalid (param params "userId") then "userId"
                    else if Dist.invalid (param params "groupId") then "groupId"
                    else "oktaDomain")
               +:+ " parameter"))) /\
  (Js.convertible (param params "userId") = false \/
   Js.convertible (param params "groupId") = false ->
   exists message,
     Eff.outcome (Legacy.invoke newURL w params context) =
       Throw (Js.newTypeError message)).
Proof.
  intros H. pose proof (legacy_invoke_run newURL w params context) as Hrun.
  cbv zeta in Hrun. unfold stringOf in Hrun.
  destruct (Js.convertible (param params "userId")) eqn:Hcu;
    [|destruct Hrun as [Ht Ho]; split; [exact Ht|]; split; [discriminate|];
      intros _; eexists; exact Ho].
  destruct (Js.convertible (param params "groupId")) eqn:Hcg;
    [|destruct Hrun as [Ht Ho]; split; [exact Ht|]; split; [discriminate|];
      intros _; eexists; exact Ho].
  assert (Hno : true = false \/ true = false ->
                exists message,
                  Eff.outcome (Legacy.invoke newURL w params context) =
                    Throw (Js.newTypeError message))
    by (intros [?|?]; discriminate).
  destruct (Dist.invalid (param params "userId"));
    [destruct Hrun as [Ht Ho]; now repeat split|].
  destruct (Dist.invalid (param params "groupId"));
    [destruct Hrun as [Ht Ho]; now repeat split|].
  destruct (Dist.invalid (param params "oktaDomain"));
    [destruct Hrun as [Ht Ho]; now repeat split|].
  now destruct H as [H|[H|H]].
Qed.

Lemma legacy_invoke_validates_witness :
  fetches (Eff.trace (Legacy.invoke Scenario.newURL
                        (Fixture.world (Normal Fixture.noContent))
                        Fixture.params Scenario.contextWithAddress)) = [] /\
  Eff.outcome (Legacy.invoke Scenario.newURL
                 (Fixture.world (Normal Fixture.noContent))
                 Fixture.params Scenario.contextWithAddress) =
    Throw (Js.newError "Invalid or missing oktaDomain parameter").
Proof.
  destruct (legacy_invoke_validates Scenario.newURL
              (Fixture.world (Normal Fixture.noContent))
              Fixture.params Scenario.contextWithAddress) as [Ht [Hout _]];
    [right; right; reflexivity|].
  split; [exact Ht|]. apply Hout; reflexivity.
Defined.

(** Whenever the request of the earlier bundle was answered by a
    response with [ok], the three parameters are non-empty strings, the
    request went to the URL the constructor gave for the encoded path
    and the base [https://<oktaDomain>], and [invoke] returns the
    record with [removed: true] and the domain as received. *)
Theorem legacy_invoke_success (newURL : string -> string -> Completion string)
    (w : World) (params : gmap string JsVal) (context : Context)
    (req : Request) (response : Response) :
  In (EvFetch req) (Eff.trace (Legacy.invoke newURL w params context)) ->
  fetch w req = Normal response ->
  ok response = true ->
  exists u g d,
    param params "userId" = JStr u /\ u <> "" /\
    param params "groupId" = JStr g /\ g <> "" /\
    param params "oktaDomain" = JStr d /\ d <> "" /\
    newURL ("/api/v1/groups/" +:+ Uri.encodeURIComponent g
            +:+ "/users/" +:+ Uri.encodeURIComponent u)
      ("https://" +:+ d) = Normal (url req) /\
    Eff.outcome (Legacy.invoke newURL w params context) =
      Normal (LegacyResult.mk (JStr u) (JStr g) true (JStr d) (now w)).
Proof.
  intros Hin Hresp Hok. apply In_fetches in Hin.
  pose proof (legacy_invoke_run newURL w params context) as Hrun. cbv zeta in Hrun.
  logged_ids Hrun Hin.
  destruct (Dist.invalid (param params "userId")) eqn:Hu; [sent_nothing Hrun Hin|].
  destruct (Dist.invalid (param params "groupId")) eqn:Hg; [sent_nothing Hrun Hin|].
  destruct (Dist.invalid (param params "oktaDomain")) eqn:Hd;
    [sent_nothing Hrun Hin|].
  destruct (Utils.material (secrets context) "BEARER_AUTH_TOKEN");
    [|sent_nothing Hrun Hin].
  apply invalid_false_iff in Hu as [u [Hu Hune]].
  apply invalid_false_iff in Hg as [g [Hg Hgne]].
  apply invalid_false_iff in Hd as [d [Hd Hdne]].
  rewrite Hu, Hg, Hd in Hrun. unfold Legacy.requestPath in Hrun.
  cbn [Js.ToString] in Hrun.
  destruct (newURL _ _) as [url|e] eqn:Hurl; [|sent_nothing Hrun Hin].
  destruct Hrun as [Ht Ho]. rewrite Ht in Hin. destruct Hin as [<-|[]].
  rewrite Hresp in Ho.
  exists u, g, d. rewrite Hu, Hg, Hd. repeat split; try assumption.
  rewrite Ho. now apply legacy_handleResponse_ok.
Qed.

Lemma legacy_invoke_success_witness :
  exists u g d,
    param Scenario.params "userId" = JStr u /\ u <> "" /\
    param Scenario.params "groupId" = JStr g /\ g <> "" /\
    param Scenario.params "oktaDomain" = JStr d /\ d <> "" /\
    Scenario.newURL ("/api/v1/groups/" +:+ Uri.encodeURIComponent g
                     +:+ "/users/" +:+ Uri.encodeURIComponent u)
      ("https://" +:+ d) =
      Normal "https://example.okta.com/api/v1/groups/group456/users/user123" /\
    Eff.outcome (Legacy.invoke Scenario.newURL
                   (Fixture.world (Normal Fixture.noContent))
                   Scenario.params Fixture.mockContext) =
      Normal (LegacyResult.mk (JStr u) (JStr g) true (JStr d)
                "2024-01-15T10:30:00.000Z").
Proof.
  apply (legacy_invoke_success Scenario.newURL
           (Fixture.world (Normal Fixture.noContent))
           Scenario.params Fixture.mockContext
           (mkRequest "https://example.okta.com/api/v1/groups/group456/users/user123"
              "DELETE" (requestHeaders "SSWS test-okta-token-123456"))
           Fixture.noContent).
  - vm_compute. right. left. reflexivity.
  - reflexivity.
  - reflexivity.
Defined.

(** When the [URL] constructor throws on the domain, the earlier bundle
    throws that error and sends nothing. *)
Theorem legacy_invoke_bad_url (newURL : string -> string -> Completion string)
    (w : World) (params : gmap string JsVal) (context : Context)
    (u g d authToken : string) (e : JsVal) :
  param params "userId" = JStr u -> u <> "" ->
  param params "groupId" = JStr g -> g <> "" ->
  param params "oktaDomain" = JStr d -> d <> "" ->
  Utils.material (secrets context) "BEARER_AUTH_TOKEN" = Some authToken ->
  newURL ("/api/v1/groups/" +:+ Uri.encodeURIComponent g
          +:+ "/users/" +:+ Uri.encodeURIComponent u)
    ("https://" +:+ d) = Throw e ->
  fetches (Eff.trace (Legacy.invoke newURL w params context)) = [] /\
  Eff.outcome (Legacy.invoke newURL w params context) = Throw e.
Proof.
  intros Hu Hune Hg Hgne Hd Hdne Htok Hurl.
  pose proof (legacy_invoke_run newURL w params context) as Hrun. cbv zeta in Hrun.
  rewrite Hu, Hg, Hd, Htok in Hrun.
  unfold stringOf in Hrun. cbn [Js.convertible] in Hrun.
  rewrite !(proj2 (invalid_false_iff _)) in Hrun by eauto.
  unfold Legacy.requestPath in Hrun. cbn [Js.ToString] in Hrun.
  now rewrite Hurl in Hrun.
Qed.

Lemma legacy_invoke_bad_url_witness :
  fetches (Eff.trace (Legacy.invoke
                        (fun _ _ => Throw (Js.newTypeError "Invalid URL"))
                        (Fixture.world (Normal Fixture.noContent))
                        Scenario.params Fixture.mockContext)) = [] /\
  Eff.outcome (Legacy.invoke
                 (fun _ _ => Throw (Js.newTypeError "Invalid URL"))
                 (Fixture.world (Normal Fixture.noContent))
                 Scenario.params Fixture.mockContext) =
    Throw (Js.newTypeError "Invalid URL").
Proof.
  apply (legacy_invoke_bad_url (fun _ _ => Throw (Js.newTypeError "Invalid URL"))
           (Fixture.world (Normal Fixture.noContent))
           Scenario.params Fixture.mockContext
           "user123" "group456" "example.okta.com" "test-okta-token-123456");
    solve [reflexivity | discriminate].
Defined.

(** The code after the call is the same in the earlier bundle and in
    the later versions: on every response both write the same console
    lines, throw the same error, and return records that agree on
    [userId], [groupId], [removed] and [removedAt], the one holding the
    domain where the other holds the base URL. *)
Theorem legacy_handleResponse_agrees (w : World) (userId groupId oktaDomain : JsVal)
    (baseUrl : string) (response : Response) :
  Eff.trace (Legacy.handleResponse w userId groupId oktaDomain response) =
    Eff.trace (handleResponse w userId groupId baseUrl response) /\
  match Eff.outcome (Legacy.handleResponse w userId groupId oktaDomain response),
        Eff.outcome (handleResponse w userId groupId baseUrl response) with
  | Normal earlier, Normal later =>
      LegacyResult.userId earlier = InvokeResult.userId later /\
      LegacyResult.groupId earlier = InvokeResult.groupId later /\
      LegacyResult.removed earlier = InvokeResult.removed later /\
      LegacyResult.removedAt earlier = InvokeResult.removedAt later /\
      LegacyResult.oktaDomain earlier = oktaDomain /\
      InvokeResult.address later = baseUrl
  | Throw e, Throw e' => e = e'
  | _, _ => False
  end.
Proof.
  unfold Legacy.handleResponse, handleResponse.
  destruct (ok response).
  - rewrite !bind_interp. destruct (stringOf userId); [|now cbn].
    rewrite !bind_interp. destruct (stringOf groupId); now cbn.
  - destruct (json response) as [body|e]; [|now cbn].
    rewrite !bind_lift_normal.
    destruct (getProp body "errorSummary") as [summary|e]; [|now cbn].
    rewrite !bind_lift_normal.
    destruct (Js.truthy summary); [|now cbn].
    rewrite !bind_interp. destruct (stringOf summary); now cbn.
Qed.

(* ================================================================== *)
(** ** What a failed response leaves in the log *)

Lemma handleResponse_failure_log (w : World) (userId groupId : JsVal)
    (baseUrl : string) (response : Response) :
  ok response = false ->
  Eff.trace (handleResponse w userId groupId baseUrl response) =
    [EvConsole ConsoleError
       match json response with
       | Normal body =>
           match getProp body "errorSummary" with
           | Normal summary =>
               if Js.truthy summary && negb (Js.convertible summary)
               then [JStr "Failed to parse error response"]
               else [JStr "Okta API error response:"; body]
           | Throw _ => [JStr "Failed to parse error response"]
           end
       | Throw _ => [JStr "Failed to parse error response"]
       end].
Proof.
  intros Hfailed. unfold handleResponse. rewrite Hfailed.
  destruct (json response) as [body|e]; [|reflexivity].
  rewrite bind_lift_normal.
  destruct (getProp body "errorSummary") as [summary|e]; [|reflexivity].
  rewrite bind_lift_normal.
  destruct (Js.truthy summary); [|reflexivity].
  rewrite bind_interp. unfold stringOf.
  now destruct (Js.convertible summary).
Qed.

(** Whenever the request was answered by a response without [ok],
    [invoke] writes exactly one [console.error] line, the last of the
    log: the whole body when it is JSON, its [errorSummary] can be read
    and is falsy or converts to a string; and
    [Failed to parse error response] when the body is not JSON, when it
    is the JSON [null], and also when its summary is truthy and does
    not convert to a string. *)
Theorem script_invoke_failure_log (w : World) (params : gmap string JsVal)
    (context : Context) (req : Request) (response : Response) :
  In (EvFetch req) (Eff.trace (Script.invoke w params context)) ->
  fetch w req = Normal response ->
  ok response = false ->
  exists before args,
    consoles (Eff.trace (Script.invoke w params context)) =
      before ++ [(ConsoleError, args)] /\
    Forall (fun line => fst line <> ConsoleError) before /\
    (forall body summary,
        json response = Normal body ->
        getProp body "errorSummary" = Normal summary ->
        Js.truthy summary = false \/ Js.convertible summary = true ->
        args = [JStr "Okta API error response:"; body]) /\
    (forall body summary,
        json response = Normal body ->
        getProp body "errorSummary" = Normal summary ->
        Js.truthy summary = true ->
        Js.convertible summary = false ->
        args = [JStr "Failed to parse error response"]) /\
    (json response = Normal JNull ->
     args = [JStr "Failed to parse error response"]) /\
    (forall e,
        json response = Throw e ->
        args = [JStr "Failed to parse error response"]).
Proof.
  intros Hin Hresp Hfailed. apply In_fetches in Hin.
  pose proof (script_invoke_run w params context) as Hrun.
  pose proof (script_invoke_consoles w params context) as Hlog.
  cbv zeta in Hrun, Hlog. unfold Script.resolvedParams in Hrun.
  destruct (resolveJSONPathTemplates w params _) as [rp errors].
  cbn [fst snd] in *.
  destruct (stringOf (param rp "userId")) as [u|e]; [|sent_nothing Hrun Hin].
  destruct (stringOf (param rp "groupId")) as [g|e]; [|sent_nothing Hrun Hin].
  destruct (Utils.getBaseUrl rp context) as [baseUrl|e]; [|sent_nothing Hrun Hin].
  destruct (Eff.outcome (Utils.getAuthorizationHeader w context)) as [h|e];
    [|sent_nothing Hrun Hin].
  destruct Hrun as [Ht _]. rewrite Ht in Hin. destruct Hin as [<-|[]].
  rewrite Hresp in Hlog.
  rewrite (handleResponse_failure_log _ _ _ _ _ Hfailed) in Hlog.
  cbn [consoles] in Hlog. rewrite Hlog.
  match goal with
  | |- context [?A ++ ?x :: [(ConsoleError, ?y)]] => exists (A ++ [x]), y
  end.
  split.
  - now rewrite <- app_assoc.
  - split.
    + apply Forall_app. split.
      * destruct errors; repeat constructor; discriminate.
      * repeat constructor. discriminate.
    + split; [|split; [|split]].
      * intros body summary -> -> [-> | ->]; [reflexivity|].
        now rewrite andb_false_r.
      * now intros body summary -> -> -> ->.
      * now intros ->.
      * now intros e ->.
Qed.

Lemma script_invoke_failure_log_witness :
  exists before args,
    consoles (Eff.trace (Script.invoke (Fixture.world (Normal Fixture.notJson))
                           Fixture.params Fixture.mockContext)) =
      before ++ [(ConsoleError, args)] /\
    args = [JStr "Failed to parse error response"].
Proof.
  destruct (script_invoke_failure_log (Fixture.world (Normal Fixture.notJson))
              Fixture.params Fixture.mockContext
              (request (JStr "user123") (JStr "group456")
                 "https://example.okta.com" "SSWS test-okta-token-123456")
              Fixture.notJson)
    as [before [args [Hlog [_ [_ [_ [_ Hnot]]]]]]].
  - vm_compute. right. left. reflexivity.
  - reflexivity.
  - reflexivity.
  - exists before, args. split; [exact Hlog|].
    apply (Hnot (Js.newError "Not JSON")). reflexivity.
Defined.

(* ================================================================== *)
(** ** Identifiers that need no escaping *)

Lemma append_same_length (a b x y : string) :
  a +:+ x = b +:+ y -> String.length a = String.length b -> a = b /\ x = y.
Proof.
  revert b. induction a as [|c a IH]; intros [|d b] H Hlen; try discriminate.
  - now split.
  - rewrite !append_cons in H. injection H as -> H. injection Hlen as Hlen.
    destruct (IH b H Hlen) as [-> ->]. now split.
Qed.

(** The identifiers appear in the URL as they are exactly when both are
    made of unreserved marks only (letters, digits and [-_.!~*'()]). *)
Theorem requestUrl_plain (baseUrl userId groupId : string) :
  requestUrl (JStr userId) (JStr groupId) baseUrl =
    baseUrl +:+ "/api/v1/groups/" +:+ groupId +:+ "/users/" +:+ userId
  <->
  Uri.all_chars Uri.unreserved userId = true /\
  Uri.all_chars Uri.unreserved groupId = true.
Proof.
  unfold requestUrl. cbn [Js.ToString]. split.
  - intros H. apply String.app_inj in H. apply (String.app_inj "/api/v1/groups/") in H.
    pose proof (encodeURIComponent_length groupId) as Hg.
    pose proof (encodeURIComponent_length userId) as Hu.
    pose proof (f_equal String.length H) as Hlen.
    rewrite !length_append in Hlen.
    destruct (append_same_length _ _ _ _ H ltac:(lia)) as [Heg Hrest].
    apply (String.app_inj "/users/") in Hrest.
    split; now apply encodeURIComponent_fixed.
  - intros [Hu Hg]. now rewrite !(proj2 (encodeURIComponent_fixed _)).
Qed.

(* ================================================================== *)
(** ** An address that does not resolve *)

(** When the address does not resolve, the run of [invoke] holds
    console lines only, so no credential was exchanged and nothing was
    sent; [invoke] stops with the resolver's error when the two
    identifiers convert to strings for the starting line, and with the
    [TypeError] of that line when one does not. *)
Theorem script_invoke_no_address (w : World) (params : gmap string JsVal)
    (context : Context) (e : JsVal) :
  Utils.getBaseUrl (Script.resolvedParams w params context) context = Throw e ->
  Forall (fun ev => exists stream args, ev = EvConsole stream args)
    (Eff.trace (Script.invoke w params context)) /\
  (Js.convertible (param (Script.resolvedParams w params context) "userId") = true ->
   Js.convertible (param (Script.resolvedParams w params context) "groupId") = true ->
   Eff.outcome (Script.invoke w params context) = Throw e) /\
  (Js.convertible (param (Script.resolvedParams w params context) "userId") = false \/
   Js.convertible (param (Script.resolvedParams w params context) "groupId") = false ->
   exists message,
     Eff.outcome (Script.invoke w params context) = Throw (Js.newTypeError message)).
Proof.
  unfold Script.resolvedParams, Script.invoke.
  destruct (resolveJSONPathTemplates w params _) as [rp errors]. cbn [fst].
  intros ->. cbv zeta.
  assert (Hrest :
    forall pre : Eff unit,
      (pre = Eff.ret tt \/ exists args, pre = console ConsoleWarn args) ->
      let run :=
        pre ;;
        let! u := interp (param rp "userId") in
        let! g := interp (param rp "groupId") in
        console ConsoleLog
          [JStr ("Starting Okta user group removal: user " +:+ u
                 +:+ " from group " +:+ g)] ;;
        let! baseUrl := Eff.lift (Throw e) in
        let! authHeader := Utils.getAuthorizationHeader w context in
        let! response :=
          Script.unassignUserFromGroup w (param rp "userId") (param rp "groupId")
            baseUrl (Script.sswsHeader authHeader) in
        handleResponse w (param rp "userId") (param rp "groupId") baseUrl response in
      Forall (fun ev => exists stream args, ev = EvConsole stream args)
        (Eff.trace run) /\
      (Js.convertible (param rp "userId") = true ->
       Js.convertible (param rp "groupId") = true ->
       Eff.outcome run = Throw e) /\
      (Js.convertible (param rp "userId") = false \/
       Js.convertible (param rp "groupId") = false ->
       exists message, Eff.outcome run = Throw (Js.newTypeError message))).
  { intros pre Hpre. cbv zeta.
    assert (Hshape : exists t, pre = (t, Normal tt) /\
              Forall (fun ev => exists stream args, ev = EvConsole stream args) t).
    { destruct Hpre as [-> | [args ->]].
      - exists []. split; [reflexivity|constructor].
      - eexists. split; [reflexivity|]. repeat constructor. eauto. }
    destruct Hshape as [t [-> Ht]]. rewrite bind_normal.
    rewrite !bind_interp. unfold stringOf.
    destruct (Js.convertible (param rp "userId")).
    - rewrite !bind_interp. unfold stringOf.
      destruct (Js.convertible (param rp "groupId")).
      + rewrite bind_console. cbn [Eff.trace Eff.outcome fst snd].
        split; [|split; [reflexivity|intros [?|?]; discriminate]].
        apply Forall_app. split; [exact Ht|]. repeat constructor. eauto.
      + cbn [Eff.trace Eff.outcome fst snd]. rewrite app_nil_r.
        split; [exact Ht|]. split; [discriminate|]. intros _. eexists. reflexivity.
    - cbn [Eff.trace Eff.outcome fst snd]. rewrite app_nil_r.
      split; [exact Ht|]. split; [discriminate|]. intros _. eexists. reflexivity. }
  destruct errors; apply Hrest; [left; reflexivity|right; eexists; reflexivity].
Qed.

Lemma script_invoke_no_address_witness :
  Eff.outcome (Script.invoke (Fixture.world (Normal Fixture.noContent))
                 Fixture.paramsNoAddress Fixture.mockContext) =
    Throw (Js.newError
             "No URL specified. Provide address parameter or ADDRESS environment variable") /\
  Forall (fun ev => exists stream args, ev = EvConsole stream args)
    (Eff.trace (Script.invoke (Fixture.world (Normal Fixture.noContent))
                  Fixture.paramsNoAddress Fixture.mockContext)).
Proof.
  destruct (script_invoke_no_address (Fixture.world (Normal Fixture.noContent))
              Fixture.paramsNoAddress Fixture.mockContext
              (Js.newError
                 "No URL specified. Provide address parameter or ADDRESS environment variable")
              eq_refl) as [Ht [Hout _]].
  split; [apply Hout; reflexivity | exact Ht].
Defined.
